(** * Verification of the auto-grader's scoring engine

    Shallow embedding of [spec/grade_pandas.py] and
    [spec/grade_python_list.py]: the answer extractor, the strict
    comparator, the tolerant (regular-expression) matchers, the task
    scorer and the per-submission result assembly.

    Python text is a sequence of Unicode code points; values read back by
    [ast.literal_eval] are a tree of Python objects; the score breakdown is
    a finite map from the task key to the points awarded. *)

From Stdlib Require Import ZArith NArith Lia Bool.
From stdpp Require Import base option list gmap strings fin_maps.

Local Open Scope N_scope.
Set Warnings "-register-all".

(* ===================================================================== *)
(** * Python [str]: sequences of code points *)
(* ===================================================================== *)

Module Str.

(** A Python [str] is a sequence of code points. *)
Abbreviation str := (list N).

(** Code points of an ASCII-only literal of the source. *)
Fixpoint lit (s : string) : str :=
  match s with
  | EmptyString => []
  | String a s' => Ascii.N_of_ascii a :: lit s'
  end.

(** [c.isspace()] ([Py_UNICODE_ISSPACE]): the characters removed by
    [str.strip()] and matched by the pattern [\s] on text. *)
Definition is_space (c : N) : bool :=
  ((0x09 <=? c) && (c <=? 0x0D)) || ((0x1C <=? c) && (c <=? 0x20))
  || (c =? 0x85) || (c =? 0xA0) || (c =? 0x1680)
  || ((0x2000 <=? c) && (c <=? 0x200A))
  || (c =? 0x2028) || (c =? 0x2029) || (c =? 0x202F) || (c =? 0x205F)
  || (c =? 0x3000).

(** Line boundaries of [str.splitlines()] ([Py_UNICODE_ISLINEBREAK]). *)
Definition is_linebreak (c : N) : bool :=
  ((0x0A <=? c) && (c <=? 0x0D)) || ((0x1C <=? c) && (c <=? 0x1E))
  || (c =? 0x85) || (c =? 0x2028) || (c =? 0x2029).

Definition CR : N := 0x0D.
Definition LF : N := 0x0A.

(** [s.splitlines()]: the lines of [s] without their terminators; a
    carriage return followed by a line feed is one terminator, and a
    terminator at the very end opens no further line. *)
Fixpoint splitlines (s : str) : list str :=
  match s with
  | [] => []
  | c :: s' =>
      if is_linebreak c then
        match s' with
        | d :: s'' =>
            if (c =? CR) && (d =? LF) then [] :: splitlines s''
            else [] :: splitlines s'
        | [] => [[]]
        end
      else
        match splitlines s' with
        | [] => [[c]]
        | l :: ls => (c :: l) :: ls
        end
  end.

Fixpoint lstrip (s : str) : str :=
  match s with
  | c :: s' => if is_space c then lstrip s' else s
  | [] => []
  end.

Definition rstrip (s : str) : str := rev (lstrip (rev s)).

(** [s.strip()] *)
Definition strip (s : str) : str := rstrip (lstrip s).

(** [a == b] on text. *)
Fixpoint eqb (a b : str) : bool :=
  match a, b with
  | [], [] => true
  | x :: a', y :: b' => (x =? y) && eqb a' b'
  | _, _ => false
  end.

(** [s.startswith(p)] *)
Fixpoint startswith (p s : str) : bool :=
  match p, s with
  | [], _ => true
  | x :: p', y :: s' => (x =? y) && startswith p' s'
  | _ :: _, [] => false
  end.

(** Index of the first suffix of [s] that passes [test], counted from
    [i]: the scan of [str.find] and of [re.search]. *)
Fixpoint leftmost (test : str -> bool) (s : str) (i : nat) : option nat :=
  if test s then Some i
  else match s with
       | [] => None
       | _ :: s' => leftmost test s' (S i)
       end.

(** [s.find(sep)]: index of the leftmost occurrence. *)
Definition find (sep s : str) : option nat := leftmost (startswith sep) s 0.

(** [sep in s] *)
Definition contains (sep s : str) : bool :=
  match find sep s with Some _ => true | None => false end.

(** [s.split(sep, 1)]: at most one split, at the leftmost occurrence. *)
Definition split1 (sep s : str) : list str :=
  match find sep s with
  | Some i => [take i s; drop (i + length sep)%nat s]
  | None => [s]
  end.

(** [sep.join(parts)] *)
Fixpoint join (sep : str) (parts : list str) : str :=
  match parts with
  | [] => []
  | [p] => p
  | p :: ps => p ++ sep ++ join sep ps
  end.

(** Decimal digits of a positive number, most significant first; the
    fuel bounds the number of digits. *)
Fixpoint digits_fuel (fuel : nat) (n : N) (acc : str) : str :=
  match fuel with
  | O => acc
  | S f =>
      let acc' := (0x30 + n mod 10) :: acc in
      if n / 10 =? 0 then acc' else digits_fuel f (n / 10) acc'
  end.

(** [str(z)] for an [int]. *)
Definition of_int (z : Z) : str :=
  let n := Z.to_N (Z.abs z) in
  let ds := digits_fuel (S (N.to_nat (N.log2 n))) n [] in
  if (z <? 0)%Z then 0x2D :: ds else ds.

End Str.

Import Str.

(* ===================================================================== *)
(** * Regular expressions: the fragment of [re] the graders use *)
(* ===================================================================== *)

Module Re.

(** Pattern syntax after compilation.  [Cls p] matches one character of
    the class [p]. *)
Inductive regex : Type :=
| Void
| Eps
| Cls (p : N -> bool)
| Cat (r1 r2 : regex)
| Alt (r1 r2 : regex)
| Star (r : regex).

(** The language of a pattern. *)
Inductive Matches : regex -> str -> Prop :=
| MEps : Matches Eps []
| MCls p c : p c = true -> Matches (Cls p) [c]
| MCat r1 r2 s1 s2 : Matches r1 s1 -> Matches r2 s2 -> Matches (Cat r1 r2) (s1 ++ s2)
| MAltL r1 r2 s : Matches r1 s -> Matches (Alt r1 r2) s
| MAltR r1 r2 s : Matches r2 s -> Matches (Alt r1 r2) s
| MStar0 r : Matches (Star r) []
| MStarS r s1 s2 : Matches r s1 -> Matches (Star r) s2 -> Matches (Star r) (s1 ++ s2).

Fixpoint nullable (r : regex) : bool :=
  match r with
  | Void => false
  | Eps => true
  | Cls _ => false
  | Cat r1 r2 => nullable r1 && nullable r2
  | Alt r1 r2 => nullable r1 || nullable r2
  | Star _ => true
  end.

(** Concatenation and alternative that drop the empty language. *)
Definition mkCat (r1 r2 : regex) : regex :=
  match r1, r2 with
  | Void, _ => Void
  | _, Void => Void
  | Eps, _ => r2
  | _, _ => Cat r1 r2
  end.

Definition mkAlt (r1 r2 : regex) : regex :=
  match r1, r2 with
  | Void, _ => r2
  | _, Void => r1
  | _, _ => Alt r1 r2
  end.

(** The pattern left to match once the character [c] has been read. *)
Fixpoint deriv (c : N) (r : regex) : regex :=
  match r with
  | Void => Void
  | Eps => Void
  | Cls p => if p c then Eps else Void
  | Cat r1 r2 =>
      mkAlt (mkCat (deriv c r1) r2) (if nullable r1 then deriv c r2 else Void)
  | Alt r1 r2 => mkAlt (deriv c r1) (deriv c r2)
  | Star r1 => mkCat (deriv c r1) (Star r1)
  end.

(** [p.match(s)] succeeds: some prefix of [s] is in the language. *)
Fixpoint match_prefix (r : regex) (s : str) : bool :=
  nullable r ||
  match s with
  | [] => false
  | c :: s' => match_prefix (deriv c r) s'
  end.

(** [p.search(s)]: [Some i] when the leftmost match starts at index [i]
    ([m.start()]), [None] when there is no match. *)
Definition search (r : regex) (s : str) : option nat :=
  leftmost (match_prefix r) s 0.

(** Truth value of a match object or [None]. *)
Definition found (m : option nat) : bool :=
  match m with Some _ => true | None => false end.

(** ** Pattern constructors *)

(** A literal character. *)
Definition chr (c : N) : regex := Cls (N.eqb c).

(** A literal run of characters. *)
Fixpoint text (s : str) : regex :=
  match s with
  | [] => Eps
  | c :: s' => Cat (chr c) (text s')
  end.

(** [.] without [DOTALL]: any character but the line feed. *)
Definition dot : regex := Cls (fun c => negb (c =? LF)).

(** [\s] on text. *)
Definition space : regex := Cls is_space.

Definition plus (r : regex) : regex := Cat r (Star r).

(** Characters that an ASCII lowercase letter [lo] of a pattern compiled
    with [re.IGNORECASE] matches in text: those whose simple lowercase
    mapping is [lo] (the letter, its capital, U+0130 for [i], U+212A for
    [k]) and the characters the compiler adds for the same uppercase
    (U+0131 for [i], U+017F for [s]). *)
Definition folds_to (lo c : N) : bool :=
  (c =? lo) || (c =? lo - 32)
  || ((lo =? 0x69) && ((c =? 0x130) || (c =? 0x131)))
  || ((lo =? 0x73) && (c =? 0x17F))
  || ((lo =? 0x6B) && (c =? 0x212A)).

Definition is_ascii_upper (c : N) : bool := (0x41 <=? c) && (c <=? 0x5A).
Definition is_ascii_lower (c : N) : bool := (0x61 <=? c) && (c <=? 0x7A).

Definition ascii_lower (c : N) : N := if is_ascii_upper c then c + 32 else c.
Definition ascii_upper (c : N) : N := if is_ascii_lower c then c - 32 else c.

(** A literal ASCII character of a pattern compiled with
    [re.IGNORECASE]: cased characters match through [folds_to], the
    others match themselves. *)
Definition ichr (c : N) : regex :=
  if is_ascii_upper c || is_ascii_lower c then Cls (folds_to (ascii_lower c))
  else chr c.

Fixpoint itext (s : str) : regex :=
  match s with
  | [] => Eps
  | c :: s' => Cat (ichr c) (itext s')
  end.

End Re.

(* ===================================================================== *)
(** * Python values read back by [ast.literal_eval] *)
(* ===================================================================== *)

Module Py.

(** The objects the expected answers are built from: [None], booleans,
    integers, text, lists, tuples and dicts.  A dict is kept as its items
    in insertion order.  Floating-point and complex numbers, bytes and
    sets, which [ast.literal_eval] also accepts, are outside this model. *)
Inductive pyval : Type :=
| PyNone
| PyBool (b : bool)
| PyInt (z : Z)
| PyStr (s : str)
| PyList (xs : list pyval)
| PyTuple (xs : list pyval)
| PyDict (kvs : list (pyval * pyval)).

#[global] Instance pyval_inhabited : Inhabited pyval := populate PyNone.

(** [v is None] *)
Definition is_none (v : pyval) : bool :=
  match v with PyNone => true | _ => false end.

(** Element-wise comparison of two sequences, in order. *)
Definition seq_eqb {A B : Type} (eq : A -> B -> bool) : list A -> list B -> bool :=
  fix go (xs : list A) (ys : list B) : bool :=
    match xs, ys with
    | [], [] => true
    | x :: xs', y :: ys' => eq x y && go xs' ys'
    | _, _ => false
    end.

(** [d.get(k)]: the value stored under the key equal to [k]. *)
Definition dict_get {K V : Type} (eqk : K -> bool) : list (K * V) -> option V :=
  fix go (kvs : list (K * V)) : option V :=
    match kvs with
    | [] => None
    | (k', v') :: kvs' => if eqk k' then Some v' else go kvs'
    end.

(** Every item satisfies [f]. *)
Definition dict_all {K V : Type} (f : K -> V -> bool) : list (K * V) -> bool :=
  fix go (kvs : list (K * V)) : bool :=
    match kvs with
    | [] => true
    | (k, v) :: kvs' => f k v && go kvs'
    end.

(** [a == b].  Booleans are integers ([True == 1]); lists and tuples
    compare element by element; two dicts are equal when they have the
    same number of items and every key of the first is a key of the second
    with an equal value. *)
Fixpoint py_eq (a b : pyval) {struct a} : bool :=
  match a, b with
  | PyNone, PyNone => true
  | PyBool x, PyBool y => Bool.eqb x y
  | PyBool x, PyInt y => (Z.b2z x =? y)%Z
  | PyInt x, PyBool y => (x =? Z.b2z y)%Z
  | PyInt x, PyInt y => (x =? y)%Z
  | PyStr s, PyStr t => Str.eqb s t
  | PyList xs, PyList ys => seq_eqb py_eq xs ys
  | PyTuple xs, PyTuple ys => seq_eqb py_eq xs ys
  | PyDict xs, PyDict ys =>
      (length xs =? length ys)%nat
      && dict_all (fun k v =>
                     match dict_get (py_eq k) ys with
                     | Some v' => py_eq v v'
                     | None => false
                     end) xs
  | _, _ => false
  end.

(** No later item of a dict repeats the key [k]. *)
Definition key_fresh (k : pyval) (kvs : list (pyval * pyval)) : bool :=
  negb (existsb (fun kv => py_eq k kv.1) kvs).

(** The items of a dict are well formed: keys and values are, and no key
    comes back later. *)
Definition dict_wf {K V : Type} (wfk : K -> bool) (wfv : V -> bool)
    (fresh : K -> list (K * V) -> bool) : list (K * V) -> bool :=
  fix go (kvs : list (K * V)) : bool :=
    match kvs with
    | [] => true
    | (k, v) :: kvs' => wfk k && wfv v && fresh k kvs' && go kvs'
    end.

(** Values as Python builds them: the keys of a dict are pairwise
    different, at every depth. *)
Fixpoint wf (a : pyval) : bool :=
  match a with
  | PyList xs | PyTuple xs => forallb wf xs
  | PyDict kvs => dict_wf wf wf key_fresh kvs
  | _ => true
  end.

(** [d[k] = v] on the items of a dict literal under construction: a key
    already present keeps its place and takes the new value. *)
Fixpoint dict_set (k v : pyval) (kvs : list (pyval * pyval)) : list (pyval * pyval) :=
  match kvs with
  | [] => [(k, v)]
  | (k', v') :: kvs' =>
      if py_eq k' k then (k', v) :: kvs' else (k', v') :: dict_set k v kvs'
  end.

(** ** Deep structural equality, as the specification words it *)

(** The numeric value of a scalar number. *)
Definition num_value (a : pyval) : option Z :=
  match a with
  | PyBool b => Some (Z.b2z b)
  | PyInt z => Some z
  | _ => None
  end.

(** Some item of [kvs] satisfies [P]. *)
Definition some_item {K V : Type} (P : K -> V -> Prop) : list (K * V) -> Prop :=
  fix go (kvs : list (K * V)) : Prop :=
    match kvs with
    | [] => False
    | (k, v) :: kvs' => P k v \/ go kvs'
    end.

(** Every item of [kvs] satisfies [P]. *)
Definition each_item {K V : Type} (P : K -> V -> Prop) : list (K * V) -> Prop :=
  fix go (kvs : list (K * V)) : Prop :=
    match kvs with
    | [] => True
    | (k, v) :: kvs' => P k v /\ go kvs'
    end.

(** Two sequences agree position by position. *)
Definition seq_rel {A B : Type} (R : A -> B -> Prop) : list A -> list B -> Prop :=
  fix go (xs : list A) (ys : list B) : Prop :=
    match xs, ys with
    | [], [] => True
    | x :: xs', y :: ys' => R x y /\ go xs' ys'
    | _, _ => False
    end.

(** Sequences compare element by element in order, mappings compare by
    their key/value pairs whatever the insertion order, scalars compare
    by value, and values of different shape are never equal. *)
Fixpoint deep_equal (a b : pyval) {struct a} : Prop :=
  match a, b with
  | PyNone, PyNone => True
  | PyBool _, (PyBool _ | PyInt _) | PyInt _, (PyBool _ | PyInt _) =>
      num_value a = num_value b
  | PyStr s, PyStr t => s = t
  | PyList xs, PyList ys => seq_rel deep_equal xs ys
  | PyTuple xs, PyTuple ys => seq_rel deep_equal xs ys
  | PyDict xs, PyDict ys =>
      each_item (fun k v =>
                   some_item (fun k' v' => deep_equal k k' /\ deep_equal v v') ys) xs
      /\ each_item (fun k' v' =>
                      some_item (fun k v => deep_equal k k' /\ deep_equal v v') xs) ys
  | _, _ => False
  end.

(** The shape of a value. *)
Inductive shape : Type :=
  ShNone | ShNumber | ShText | ShList | ShTuple | ShMapping.

Definition shape_of (a : pyval) : shape :=
  match a with
  | PyNone => ShNone
  | PyBool _ | PyInt _ => ShNumber
  | PyStr _ => ShText
  | PyList _ => ShList
  | PyTuple _ => ShTuple
  | PyDict _ => ShMapping
  end.

End Py.

Import Py.

(* ===================================================================== *)
(** * The parts the two graders share *)
(* ===================================================================== *)

(** What the graders take from the Python runtime: [ast.literal_eval]
    ([None] when it raises) and the text [str(v)] that an f-string puts in
    place of a value.  The statements below hold for every such pair of
    functions on the values of [pyval]. *)
Class PyRuntime : Type := {
  literal_eval : str -> option pyval;
  py_str : pyval -> str
}.

(** [d[k]] on a module-level table whose keys are the task keys; the
    graders only ask for keys that the table has. *)
Fixpoint subscript {V : Type} `{Inhabited V} (d : list (string * V)) (k : string) : V :=
  match d with
  | [] => inhabitant
  | (k', v) :: d' => if String.eqb k' k then v else subscript d' k
  end.

(** Outcome of [subprocess.run] on a submission: it ran to completion, it
    exceeded the timeout (with whatever output was captured), or it could
    not be run. *)
Inductive run_outcome : Type :=
| Completed (out err : str) (returncode : Z)
| TimeoutExpired (out err : option str)
| RunError (msg : str).

(** [x or d] on optional text: [None] and the empty text are false. *)
Definition text_or (x : option str) (d : str) : str :=
  match x with
  | Some (c :: s) => c :: s
  | _ => d
  end.

Record GradeResult : Type := mkGradeResult {
  student_id : str;
  filename : str;
  total : Z;
  breakdown : gmap string Z;
  remarks : str;
  raw_stdout : str;
  raw_stderr : str
}.

Module Common.

(** The expected answers, the same table in both graders. *)
Definition alice_stats : pyval :=
  PyDict [(PyStr (lit "num_orders"), PyInt 2); (PyStr (lit "total_spent"), PyInt 250)].
Definition bob_stats : pyval :=
  PyDict [(PyStr (lit "num_orders"), PyInt 1); (PyStr (lit "total_spent"), PyInt 200)].
Definition joined_row (name : string) (amount : Z) : pyval :=
  PyDict [(PyStr (lit "name"), PyStr (lit name)); (PyStr (lit "total"), PyInt amount)].

Definition EXPECTED : list (string * pyval) :=
  [ ("joined", PyList [joined_row "Alice" 100; joined_row "Alice" 150; joined_row "Bob" 200]);
    ("grouped", PyDict [(PyStr (lit "Alice"), alice_stats); (PyStr (lit "Bob"), bob_stats)]);
    ("sorted_result", PyList [PyTuple [PyStr (lit "Alice"); alice_stats];
                              PyTuple [PyStr (lit "Bob"); bob_stats]]);
    ("top_user", PyTuple [PyStr (lit "Alice"); alice_stats]) ]%string.

(** [sum(breakdown.values())] *)
Definition sum_values (m : gmap string Z) : Z :=
  map_fold (fun _ v acc => (v + acc)%Z) 0%Z m.

(** [{k: 0 for k in POINTS}] *)
Definition zero_breakdown (POINTS : list (string * Z)) : gmap string Z :=
  foldl (fun m kv => <[kv.1 := 0%Z]> m) ∅ POINTS.

(** [f"Script failed (exit {code}). Stderr: {stderr[:500]}"] *)
Definition failure_remark (code : Z) (stderr : str) : str :=
  lit "Script failed (exit " ++ of_int code ++ lit "). Stderr: " ++ take 500 stderr.

Section WithRuntime.
Context {rt : PyRuntime}.

Definition safe_literal_eval (s : str) : pyval :=
  match literal_eval (strip s) with
  | Some v => v
  | None => PyNone
  end.

(** The inner loop of [extract_after_header]: the stripped text of the
    first line that is not blank. *)
Fixpoint next_nonblank (lines : list str) : option str :=
  match lines with
  | [] => None
  | l :: lines' =>
      match strip l with
      | [] => next_nonblank lines'
      | nxt => Some nxt
      end
  end.

(** The outer loop of [extract_after_header]. *)
Fixpoint extract_in_lines (lines : list str) (header : str) : pyval :=
  match lines with
  | [] => PyNone
  | line :: lines' =>
      if Str.eqb (strip line) header then
        match next_nonblank lines' with
        | Some nxt => safe_literal_eval nxt
        | None => PyNone
        end
      else extract_in_lines lines' header
  end.

Definition extract_after_header (stdout header : str) : pyval :=
  extract_in_lines (splitlines stdout) header.

Definition compare_deep (a b : pyval) : bool := py_eq a b.

(** The first loop of [grade_from_stdout] in the pandas grader:
    [parsed[key] = extract_after_header(stdout, header)] for every header. *)
Definition parse_all (HEADERS : list (string * str)) (stdout : str) : gmap string pyval :=
  foldl (fun parsed kh => <[kh.1 := extract_after_header stdout kh.2]> parsed) ∅ HEADERS.

(** The strict test of both scorers:
    [obj is not None and compare_deep(obj, EXPECTED[key])]. *)
Definition strict_pass (obj : pyval) (key : string) : bool :=
  negb (is_none obj) && compare_deep obj (subscript EXPECTED key).

End WithRuntime.

End Common.

Import Common.

(* ===================================================================== *)
(** * [spec/grade_pandas.py] *)
(* ===================================================================== *)

Module Pandas.

Definition TIMEOUT_SECS : Z := 8.

Definition POINTS : list (string * Z) :=
  [("joined", 5); ("grouped", 10); ("sorted_result", 20); ("top_user", 5)]%string%Z.

(** The decorations of the headers, character by character as the source
    file has them: U+00E2 U+0153 U+2026 and U+00F0 U+0178 U+2020. *)
Definition mark : str := [0xE2; 0x153; 0x2026].
Definition cup : str := [0xF0; 0x178; 0x2020].

Definition sorted_marker : str := mark ++ lit " Sorted Result:".
Definition top_marker : str := cup ++ lit " Top User:".

Definition HEADERS : list (string * str) :=
  [ ("joined"%string, mark ++ lit " Joined Result:");
    ("grouped"%string, mark ++ lit " Grouped Result:");
    ("sorted_result"%string, mark ++ lit " Sorted Result:");
    ("top_user"%string, cup ++ lit " Top User:") ].

(** [Alice.*100], [Alice.*150], [Bob.*200] *)
Definition RE_JOINED_A1 : Re.regex :=
  Re.Cat (Re.text (lit "Alice")) (Re.Cat (Re.Star Re.dot) (Re.text (lit "100"))).
Definition RE_JOINED_A2 : Re.regex :=
  Re.Cat (Re.text (lit "Alice")) (Re.Cat (Re.Star Re.dot) (Re.text (lit "150"))).
Definition RE_JOINED_B1 : Re.regex :=
  Re.Cat (Re.text (lit "Bob")) (Re.Cat (Re.Star Re.dot) (Re.text (lit "200"))).

(** A name, white space, a count, white space, a sum. *)
Definition row (name count amount : string) : Re.regex :=
  Re.Cat (Re.text (lit name))
    (Re.Cat (Re.plus Re.space)
       (Re.Cat (Re.text (lit count))
          (Re.Cat (Re.plus Re.space) (Re.text (lit amount))))).

(** [Alice\s+2\s+250] and [Bob\s+1\s+200] *)
Definition RE_G_A : Re.regex := row "Alice" "2" "250".
Definition RE_G_B : Re.regex := row "Bob" "1" "200".

(** [Name:\s*Alice] and [total_spent\s+250], both with [re.IGNORECASE] *)
Definition RE_TOP_NAME : Re.regex :=
  Re.Cat (Re.itext (lit "Name:")) (Re.Cat (Re.Star Re.space) (Re.itext (lit "Alice"))).
Definition RE_TOP_VAL : Re.regex :=
  Re.Cat (Re.itext (lit "total_spent")) (Re.Cat (Re.plus Re.space) (Re.itext (lit "250"))).

Definition joined_fallback (stdout : str) : bool :=
  forallb (fun p => Re.found (Re.search p stdout))
          [RE_JOINED_A1; RE_JOINED_A2; RE_JOINED_B1].

Definition grouped_fallback (stdout : str) : bool :=
  Re.found (Re.search RE_G_A stdout) && Re.found (Re.search RE_G_B stdout).

(** [stdout.split(marker, 1)[1]] when [marker in stdout], else [stdout]. *)
Definition after_marker (marker stdout : str) : str :=
  if contains marker stdout
  then default stdout (split1 marker stdout !! 1%nat)
  else stdout.

Definition sorted_fallback (stdout : str) : bool :=
  let section := after_marker sorted_marker stdout in
  match Re.search RE_G_A section, Re.search RE_G_B section with
  | Some ia, Some ib => (ia <? ib)%nat
  | _, _ => false
  end.

Definition top_user_fallback (stdout : str) : bool :=
  let block := after_marker top_marker stdout in
  Re.found (Re.search RE_TOP_NAME block) && Re.found (Re.search RE_TOP_VAL block).

(** The tolerant matcher that the scorer runs for each key. *)
Definition fallback (key : string) : str -> bool :=
  if String.eqb key "joined" then joined_fallback
  else if String.eqb key "grouped" then grouped_fallback
  else if String.eqb key "sorted_result" then sorted_fallback
  else top_user_fallback.

Section WithRuntime.
Context {rt : PyRuntime}.

(** One of the four [if]/[elif]/[else] blocks of [grade_from_stdout],
    acting on the breakdown and the remarks. *)
Definition score_key (stdout : str) (parsed : gmap string pyval) (key : string)
    (st : gmap string Z * list str) : gmap string Z * list str :=
  let '(breakdown, remarks) := st in
  if strict_pass (parsed !!! key) key then
    (<[key := subscript POINTS key]> breakdown, remarks)
  else if fallback key stdout then
    (<[key := subscript POINTS key]> breakdown, remarks)
  else (breakdown, remarks ++ [lit key ++ lit " mismatch"]).

(** Step 2 of [grade_from_stdout]: the four blocks in turn, from the
    zero breakdown and no remark. *)
Definition score_all (stdout : str) (parsed : gmap string pyval)
    : gmap string Z * list str :=
  let st := (zero_breakdown POINTS, []) in
  let st := score_key stdout parsed "joined" st in
  let st := score_key stdout parsed "grouped" st in
  let st := score_key stdout parsed "sorted_result" st in
  score_key stdout parsed "top_user" st.

Definition grade_from_stdout (stdout : str) : Z * gmap string Z * list str :=
  let parsed := parse_all HEADERS stdout in
  let st := score_all stdout parsed in
  (sum_values st.1, st.1, st.2).

Definition run_student_file (o : run_outcome) : str * str * Z :=
  match o with
  | Completed out err rc => (out, err, rc)
  | TimeoutExpired out err =>
      (text_or out [],
       text_or err (lit "Timed out after " ++ of_int TIMEOUT_SECS ++ lit "s"),
       124%Z)
  | RunError msg => ([], msg, 1%Z)
  end.

(** The branch of [main] on the exit code: total, breakdown and remarks. *)
Definition score_run (stdout stderr : str) (code : Z) : Z * gmap string Z * list str :=
  if negb (code =? 0)%Z
  then (0%Z, zero_breakdown POINTS, [failure_remark code stderr])
  else grade_from_stdout stdout.

(** The body of the loop of [main] for one submission. *)
Definition grade_file (sid fname : str) (o : run_outcome) : GradeResult :=
  let '(stdout, stderr, code) := run_student_file o in
  let '(total, breakdown, remarks) := score_run stdout stderr code in
  mkGradeResult sid fname total breakdown (join (lit " | ") remarks) stdout stderr.

End WithRuntime.

End Pandas.

(* ===================================================================== *)
(** * [spec/grade_python_list.py] *)
(* ===================================================================== *)

Module PyList.

Definition TIMEOUT_SECS : Z := 8.

Definition POINTS : list (string * Z) :=
  [("joined", 15); ("grouped", 30); ("sorted_result", 15); ("top_user", 10)]%string%Z.

(** U+2705 and U+1F3C6 *)
Definition mark : str := [0x2705].
Definition cup : str := [0x1F3C6].

Definition HEADERS : list (string * str) :=
  [ ("joined"%string, mark ++ lit " Joined Result:");
    ("grouped"%string, mark ++ lit " Grouped Result:");
    ("sorted_result"%string, mark ++ lit " Sorted Result:");
    ("top_user"%string, cup ++ lit " Top User:") ].

Section WithRuntime.
Context {rt : PyRuntime}.

(** Body of the first loop: store the extracted object, remark when it is
    [None]. *)
Definition extract_key (stdout : str) (st : gmap string pyval * list str)
    (kh : string * str) : gmap string pyval * list str :=
  let '(parsed, remarks) := st in
  let obj := extract_after_header stdout kh.2 in
  (<[kh.1 := obj]> parsed,
   if is_none obj
   then remarks ++ [lit "Missing or unparsable output for: " ++ lit kh.1]
   else remarks).

(** Body of the second loop: [parsed.get(key)] against [EXPECTED[key]]. *)
Definition score_key (parsed : gmap string pyval)
    (st : gmap string Z * list str) (kp : string * Z) : gmap string Z * list str :=
  let '(breakdown, remarks) := st in
  let key := kp.1 in
  let obj := default PyNone (parsed !! key) in
  let exp := subscript EXPECTED key in
  if strict_pass obj key then
    (<[key := subscript POINTS key]> breakdown, remarks)
  else
    (breakdown,
     remarks ++ [lit key ++ lit ": expected " ++ py_str exp ++ lit ", got " ++ py_str obj]).

(** The second loop, over the keys of [POINTS]. *)
Definition score_all (parsed : gmap string pyval) (remarks : list str)
    : gmap string Z * list str :=
  foldl (score_key parsed) (zero_breakdown POINTS, remarks) POINTS.

Definition grade_from_stdout (stdout : str) : Z * gmap string Z * list str :=
  let '(parsed, remarks) := foldl (extract_key stdout) (∅, []) HEADERS in
  let '(breakdown, remarks) := score_all parsed remarks in
  (sum_values breakdown, breakdown, remarks).

Definition run_student_file (o : run_outcome) : str * str * Z :=
  match o with
  | Completed out err rc => (out, err, rc)
  | TimeoutExpired out err => (text_or out [], text_or err (lit "Timed out"), 124%Z)
  | RunError msg => ([], msg, 1%Z)
  end.

Definition score_run (stdout stderr : str) (code : Z) : Z * gmap string Z * list str :=
  if negb (code =? 0)%Z
  then (0%Z, zero_breakdown POINTS, [failure_remark code stderr])
  else grade_from_stdout stdout.

Definition grade_file (sid fname : str) (o : run_outcome) : GradeResult :=
  let '(stdout, stderr, code) := run_student_file o in
  let '(total, breakdown, remarks) := score_run stdout stderr code in
  mkGradeResult sid fname total breakdown (join (lit " | ") remarks) stdout stderr.

End WithRuntime.

End PyList.

(* ===================================================================== *)
(** * A reader for the literals the exercises print *)
(* ===================================================================== *)

(** An executable stand-in for the runtime, used to run the graders on
    concrete outputs.  [literal_eval] reads the part of the literal syntax
    that the exercises print: [None], [True], [False], decimal integers,
    quoted text without escapes, lists, tuples and dicts, separated by
    blanks.  It answers [None] on anything else. *)
Module Reader.

Definition is_blank (c : N) : bool := (c =? 0x20) || (c =? 0x09).
Definition is_digit (c : N) : bool := (0x30 <=? c) && (c <=? 0x39).
Definition is_ident (c : N) : bool :=
  is_digit c || Re.is_ascii_lower c || Re.is_ascii_upper c || (c =? 0x5F) || (0x80 <=? c).

Fixpoint skip_blanks (s : str) : str :=
  match s with
  | c :: s' => if is_blank c then skip_blanks s' else s
  | [] => []
  end.

(** The characters up to the closing quote [q], and what follows it. *)
Fixpoint read_quoted (q : N) (s : str) : option (str * str) :=
  match s with
  | [] => None
  | c :: s' =>
      if c =? q then Some ([], s')
      else if (c =? 0x5C) || is_linebreak c then None
      else match read_quoted q s' with
           | Some (body, rest) => Some (c :: body, rest)
           | None => None
           end
  end.

(** A run of digits with the value read so far. *)
Fixpoint read_digits (s : str) (acc : Z) : Z * str :=
  match s with
  | c :: s' =>
      if is_digit c then read_digits s' (10 * acc + Z.of_N (c - 0x30))%Z
      else (acc, s)
  | [] => (acc, [])
  end.

(** A decimal integer without a leading zero. *)
Definition read_nat (s : str) : option (Z * str) :=
  match s with
  | c :: s' =>
      if negb (is_digit c) then None
      else if c =? 0x30 then
        match s' with
        | d :: _ => if is_ident d then None else Some (0%Z, s')
        | [] => Some (0%Z, s')
        end
      else Some (read_digits s 0%Z)
  | [] => None
  end.

(** A keyword, not followed by a character that would continue a name. *)
Definition read_word (w : str) (v : pyval) (s : str) : option (pyval * str) :=
  if startswith w s then
    match drop (length w) s with
    | d :: rest => if is_ident d then None else Some (v, d :: rest)
    | [] => Some (v, [])
    end
  else None.

(** Objects that can be the key of a dict. *)
Fixpoint hashable (v : pyval) : bool :=
  match v with
  | PyList _ | PyDict _ => false
  | PyTuple xs => forallb hashable xs
  | _ => true
  end.

(** [read_value] reads one value; [read_items] reads the rest of a
    bracketed sequence up to [close] and tells whether it saw a comma;
    [read_pairs] reads the rest of a dict display. *)
Fixpoint read_value (fuel : nat) (s : str) : option (pyval * str) :=
  match fuel with
  | O => None
  | S fuel' =>
      match skip_blanks s with
      | [] => None
      | c :: s' =>
          if c =? 0x5B then
            match read_items fuel' 0x5D s' [] false with
            | Some (xs, _, rest) => Some (PyList xs, rest)
            | None => None
            end
          else if c =? 0x28 then
            match read_items fuel' 0x29 s' [] false with
            | Some ([x], false, rest) => Some (x, rest)
            | Some (xs, _, rest) => Some (PyTuple xs, rest)
            | None => None
            end
          else if c =? 0x7B then
            match read_pairs fuel' s' [] with
            | Some (kvs, rest) => Some (PyDict kvs, rest)
            | None => None
            end
          else if (c =? 0x27) || (c =? 0x22) then
            match read_quoted c s' with
            | Some (body, rest) => Some (PyStr body, rest)
            | None => None
            end
          else if c =? 0x2D then
            match read_nat s' with
            | Some (z, rest) => Some (PyInt (- z), rest)
            | None => None
            end
          else if is_digit c then
            match read_nat (c :: s') with
            | Some (z, rest) => Some (PyInt z, rest)
            | None => None
            end
          else
            match read_word (lit "None") PyNone (c :: s') with
            | Some r => Some r
            | None =>
                match read_word (lit "True") (PyBool true) (c :: s') with
                | Some r => Some r
                | None => read_word (lit "False") (PyBool false) (c :: s')
                end
            end
      end
  end
with read_items (fuel : nat) (close : N) (s : str) (acc : list pyval) (comma : bool)
    : option (list pyval * bool * str) :=
  match fuel with
  | O => None
  | S fuel' =>
      match skip_blanks s with
      | [] => None
      | c :: s' =>
          if c =? close then Some (rev acc, comma, s')
          else
            match read_value fuel' (c :: s') with
            | None => None
            | Some (v, rest) =>
                match skip_blanks rest with
                | d :: rest' =>
                    if d =? 0x2C then read_items fuel' close rest' (v :: acc) true
                    else if d =? close then Some (rev (v :: acc), comma, rest')
                    else None
                | [] => None
                end
            end
      end
  end
with read_pairs (fuel : nat) (s : str) (acc : list (pyval * pyval))
    : option (list (pyval * pyval) * str) :=
  match fuel with
  | O => None
  | S fuel' =>
      match skip_blanks s with
      | [] => None
      | c :: s' =>
          if c =? 0x7D then Some (acc, s')
          else
            match read_value fuel' (c :: s') with
            | None => None
            | Some (k, rest) =>
                match skip_blanks rest with
                | d :: rest' =>
                    if negb (d =? 0x3A) || negb (hashable k) then None
                    else
                      match read_value fuel' rest' with
                      | None => None
                      | Some (v, rest2) =>
                          match skip_blanks rest2 with
                          | e :: rest3 =>
                              if e =? 0x2C
                              then read_pairs fuel' rest3 (dict_set k v acc)
                              else if e =? 0x7D then Some (dict_set k v acc, rest3)
                              else None
                          | [] => None
                          end
                      end
                | [] => None
                end
            end
      end
  end.

Definition literal_eval (s : str) : option pyval :=
  match read_value (2 * length s + 2) s with
  | Some (v, rest) =>
      match skip_blanks rest with
      | [] => Some v
      | _ => None
      end
  | None => None
  end.

(** [repr(v)], exact on text without quotes, backslashes and
    non-printable characters. *)
Fixpoint py_repr (v : pyval) : str :=
  match v with
  | PyNone => lit "None"
  | PyBool true => lit "True"
  | PyBool false => lit "False"
  | PyInt z => of_int z
  | PyStr s => [0x27] ++ s ++ [0x27]
  | PyList xs => lit "[" ++ join (lit ", ") (map py_repr xs) ++ lit "]"
  | PyTuple [x] => lit "(" ++ py_repr x ++ lit ",)"
  | PyTuple xs => lit "(" ++ join (lit ", ") (map py_repr xs) ++ lit ")"
  | PyDict kvs =>
      lit "{" ++ join (lit ", ")
                   (map (fun kv => py_repr kv.1 ++ lit ": " ++ py_repr kv.2) kvs)
      ++ lit "}"
  end.

(** [str(v)] *)
Definition py_str (v : pyval) : str :=
  match v with
  | PyStr s => s
  | _ => py_repr v
  end.

Definition runtime : PyRuntime :=
  Build_PyRuntime literal_eval py_str.

End Reader.

(* ===================================================================== *)
(** * Vocabulary of the statements *)
(* ===================================================================== *)

Module Spec.

(** The text [sep] occurs in [s] at offset [i]. *)
Definition occurs_at (sep s : str) (i : nat) : Prop :=
  exists pre post, s = pre ++ sep ++ post /\ length pre = i.

(** A word of the pattern [r] occurs in [s] at offset [i]. *)
Definition match_at (r : Re.regex) (s : str) (i : nat) : Prop :=
  exists pre p post, s = pre ++ p ++ post /\ length pre = i /\ Re.Matches r p.

(** A non-empty run of white space. *)
Definition blanks (w : str) : Prop :=
  w <> [] /\ Forall (fun c => is_space c = true) w.

(** Evidence of a group at offset [i] of [t]: its name, white space, its
    count, white space, its sum. *)
Definition evidence_at (name count amount : string) (t : str) (i : nat) : Prop :=
  exists pre w1 w2 post,
    t = pre ++ lit name ++ w1 ++ lit count ++ w2 ++ lit amount ++ post
    /\ length pre = i /\ blanks w1 /\ blanks w2.

Definition evidence (name count amount : string) (t : str) : Prop :=
  exists i, evidence_at name count amount t i.


(** [w] is the search window of [s] for [marker]: what follows the first
    occurrence of the marker, or all of [s] when the marker is absent. *)
Definition window (marker s w : str) : Prop :=
  (exists pre, s = pre ++ marker ++ w
               /\ forall j, (j < length pre)%nat -> ~ occurs_at marker s j)
  \/ ((forall j, ~ occurs_at marker s j) /\ w = s).

(** The classes of the pattern [r] do not tell a character from its
    image under [f]. *)
Fixpoint respects (f : N -> N) (r : Re.regex) : Prop :=
  match r with
  | Re.Cls p => forall c, p (f c) = p c
  | Re.Cat r1 r2 | Re.Alt r1 r2 => respects f r1 /\ respects f r2
  | Re.Star r1 => respects f r1
  | _ => True
  end.

(** A text that does not start with white space. *)
Definition clean_head (t : str) : Prop :=
  match t with
  | c :: _ => is_space c = false
  | [] => True
  end.

(** Number of constructors of a value. *)
Fixpoint size (a : pyval) : nat :=
  match a with
  | PyList xs | PyTuple xs => S (list_sum (map size xs))
  | PyDict kvs => S (list_sum (map (fun kv => (size kv.1 + size kv.2)%nat) kvs))
  | _ => 1%nat
  end.

(** The graded task keys, in the order of [POINTS]. *)
Definition KEYS : list string := ["joined"; "grouped"; "sorted_result"; "top_user"]%string.

(** The breakdown that gives each task its points when it passes and
    zero when it does not. *)
Definition tally (POINTS : list (string * Z)) (pass : string -> bool) : gmap string Z :=
  list_to_map (map (fun kp => (kp.1, if pass kp.1 then kp.2 else 0%Z)) POINTS).

(** One remark per task that does not pass, in the order of the tasks. *)
Definition remarks_for (pass : string -> bool) (remark : string -> str) : list str :=
  concat (map (fun k => if pass k then [] else [remark k]) KEYS).


(** The exit code that [run_student_file] reports for an outcome. *)
Definition exit_code (o : run_outcome) : Z :=
  match o with
  | Completed _ _ rc => rc
  | TimeoutExpired _ _ => 124%Z
  | RunError _ => 1%Z
  end.


Section WithRuntime.
Context {rt : PyRuntime}.

(** The strict comparator passes on the literal extracted after the
    header of the task. *)
Definition strict_ok (HEADERS : list (string * str)) (stdout : str) (key : string) : bool :=
  strict_pass (extract_after_header stdout (subscript HEADERS key)) key.

(** A task passes in the pandas grader: strictly, or by its tolerant
    matcher. *)
Definition pandas_pass (stdout : str) (key : string) : bool :=
  strict_ok Pandas.HEADERS stdout key || Pandas.fallback key stdout.

(** A task passes in the python-list grader: strictly. *)
Definition list_pass (stdout : str) (key : string) : bool :=
  strict_ok PyList.HEADERS stdout key.

(** The remarks of the python-list grader. *)
Definition list_missing (key : string) : str :=
  lit "Missing or unparsable output for: " ++ lit key.

Definition list_mismatch (stdout : str) (key : string) : str :=
  lit key ++ lit ": expected " ++ py_str (subscript EXPECTED key) ++ lit ", got "
  ++ py_str (extract_after_header stdout (subscript PyList.HEADERS key)).

End WithRuntime.

End Spec.

(* ===================================================================== *)
(** * Sample outputs *)
(* ===================================================================== *)

Module Samples.

(** The line a correct list solution prints for the join task. *)
Definition joined_line : str :=
  lit "[{'name': 'Alice', 'total': 100}, {'name': 'Alice', 'total': 150}, {'name': 'Bob', 'total': 200}]".

(** Scenario A: the header of the join task, with U+2705, and the
    expected literal on the next line. *)
Definition scenario_a : str :=
  [0x2705] ++ lit " Joined Result:" ++ [LF] ++ joined_line.

(** The two rows of the aggregate table, as pandas prints them. *)
Definition alice_row : str := lit "Alice           2          250".
Definition bob_row : str := lit "Bob             1          200".

(** The aggregate table, sorted by descending sum. *)
Definition table : str :=
  lit "       num_orders  total_spent" ++ [LF] ++ lit "name" ++ [LF]
  ++ alice_row ++ [LF] ++ bob_row ++ [LF].

(** The same table with the two rows exchanged. *)
Definition table_reversed : str :=
  lit "       num_orders  total_spent" ++ [LF] ++ lit "name" ++ [LF]
  ++ bob_row ++ [LF] ++ alice_row ++ [LF].

(** What a correct pandas solution prints: the merged frame, the sorted
    aggregate and the top user. *)
Definition pandas_output : str :=
  [0x2705] ++ lit " Merged DataFrame:" ++ [LF]
  ++ lit "   id   name  user_id  total" ++ [LF]
  ++ lit "0   1  Alice        1    100" ++ [LF]
  ++ lit "1   1  Alice        1    150" ++ [LF]
  ++ lit "2   2    Bob        2    200" ++ [LF] ++ [LF]
  ++ [0x2705] ++ lit " Sorted Result:" ++ [LF] ++ table ++ [LF]
  ++ [0x1F3C6] ++ lit " Top User:" ++ [LF]
  ++ lit "num_orders       2" ++ [LF]
  ++ lit "total_spent    250" ++ [LF]
  ++ lit "Name: Alice, dtype: int64" ++ [LF].

(** An output with a header line, blank lines, a literal, and the header
    again. *)
Definition twice_marked : str :=
  lit "intro" ++ [LF] ++ lit "  HDR:  " ++ [LF] ++ [LF] ++ lit "   " ++ [LF]
  ++ lit " [1, 2] " ++ [LF] ++ lit "HDR:" ++ [LF] ++ lit "3" ++ [LF].

(** Two dicts with the same items in a different order, and a boolean
    where the other has the integer one. *)
Definition dict_ab : pyval :=
  PyDict [(PyStr (lit "a"), PyInt 1); (PyStr (lit "b"), PyList [PyBool true])].
Definition dict_ba : pyval :=
  PyDict [(PyStr (lit "b"), PyList [PyInt 1]); (PyStr (lit "a"), PyInt 1)].

(** The lines of [twice_marked] without their indentation. *)
Definition twice_marked_trimmed : str :=
  lit "intro" ++ [LF] ++ lit "HDR:" ++ [LF] ++ [LF] ++ [LF]
  ++ lit "[1, 2]" ++ [LF] ++ lit "HDR:" ++ [LF] ++ lit "3" ++ [LF].

(** An output of blank lines. *)
Definition blank_lines : str := lit "  " ++ [LF; 0x09; LF].

(** A layout of files for the loop of [main]. *)
Definition work_abspath (p : str) : str := lit "/work/" ++ p.
Definition list_files : list str :=
  [lit "python_list_src/grade_python_list.py"; lit "python_list_src/s01_python_list.py"].
Definition timed_out (p : str) : run_outcome := TimeoutExpired None None.

End Samples.

(* ===================================================================== *)
(** * File names, the loop of [main] and the rows of the report *)
(* ===================================================================== *)

Module Files.

(** [p.rfind(c)]: index of the last occurrence of the character [c]. *)
Fixpoint rfind (c : N) (p : str) : option nat :=
  match p with
  | [] => None
  | d :: p' =>
      match rfind c p' with
      | Some i => Some (S i)
      | None => if d =? c then Some 0%nat else None
      end
  end.

(** [os.path.basename(p)] of [posixpath]: [p[p.rfind('/') + 1:]]. *)
Definition basename (p : str) : str :=
  drop (match rfind 0x2F p with Some i => S i | None => 0%nat end) p.

(** The lazy [.+?] of the pattern [^(.+?)_] once its first character is
    taken: the further characters of group 1, up to the first underscore;
    no match when the text or the line ends before an underscore. *)
Fixpoint upto_underscore (s : str) : option str :=
  match s with
  | [] => None
  | d :: s' =>
      if d =? 0x5F then Some []
      else if d =? LF then None
      else match upto_underscore s' with
           | Some g => Some (d :: g)
           | None => None
           end
  end.

(** [re.match(r"^(.+?)_", base)]: group 1 of the match, if any. *)
Definition match_id (base : str) : option str :=
  match base with
  | [] => None
  | c :: s =>
      if c =? LF then None
      else match upto_underscore s with
           | Some g => Some (c :: g)
           | None => None
           end
  end.

(** [os.path.splitext(p)[0]] of [posixpath]: [p] without its extension;
    a name made of leading dots only up to its last dot has no
    extension. *)
Definition splitext_root (p : str) : str :=
  match rfind 0x2E p with
  | None => p
  | Some dot =>
      let start := match rfind 0x2F p with Some sep => S sep | None => 0%nat end in
      if (start <=? dot)%nat then
        if forallb (N.eqb 0x2E) (take (dot - start) (drop start p)) then p
        else take dot p
      else p
  end.

Definition student_id_from_filename (path : str) : str :=
  let base := basename path in
  match match_id base with
  | Some g => g
  | None => splitext_root base
  end.

End Files.

Module Report.

(** One row of the report, as both [main] build it from a result. *)
Record Row : Type := mkRow {
  row_student_id : str;
  row_filename : str;
  grade : Z;
  joined_pts : Z;
  grouped_pts : Z;
  sorted_pts : Z;
  top_user_pts : Z;
  row_remarks : str
}.

Definition row_of (r : GradeResult) : Row :=
  mkRow (student_id r) (filename r) (total r)
        (breakdown r !!! "joined"%string) (breakdown r !!! "grouped"%string)
        (breakdown r !!! "sorted_result"%string) (breakdown r !!! "top_user"%string)
        (remarks r).

Section WithRuntime.
Context {rt : PyRuntime}.

(** What [main] takes from its environment: [os.path.abspath], the value
    of [__file__], and what running the file at a path gives. *)
Variable abspath : str -> str.
Variable script : str.
Variable run : str -> run_outcome.

(** The loop of [main] in the pandas grader: the grader itself is
    skipped when the two absolute paths are the same. *)
Definition pandas_results (files : list str) : list GradeResult :=
  foldl (fun results fpath =>
           if Str.eqb (abspath fpath) (abspath script) then results
           else results ++ [Pandas.grade_file (Files.student_id_from_filename fpath)
                                              (Files.basename fpath) (run fpath)])
        [] files.

(** The loop of [main] in the python-list grader: the test compares the
    base name of the file with the absolute path of the script. *)
Definition list_results (files : list str) : list GradeResult :=
  foldl (fun results fpath =>
           if Str.eqb (Files.basename fpath) (abspath script) then results
           else results ++ [PyList.grade_file (Files.student_id_from_filename fpath)
                                              (Files.basename fpath) (run fpath)])
        [] files.

(** The rows built from the results, before they are sorted and written. *)
Definition rows (results : list GradeResult) : list Row := map row_of results.

End WithRuntime.

End Report.

(* ===================================================================== *)
(** * Vocabulary of the further statements *)
(* ===================================================================== *)

Module Props.

(** A row whose grade is the sum of its four task columns, each of which
    is zero or the points of its task. *)
Definition row_adds_up (POINTS : list (string * Z)) (row : Report.Row) : Prop :=
  Report.grade row
  = (Report.joined_pts row + Report.grouped_pts row
     + Report.sorted_pts row + Report.top_user_pts row)%Z
  /\ (Report.joined_pts row = 0%Z \/ Report.joined_pts row = subscript POINTS "joined")
  /\ (Report.grouped_pts row = 0%Z \/ Report.grouped_pts row = subscript POINTS "grouped")
  /\ (Report.sorted_pts row = 0%Z
      \/ Report.sorted_pts row = subscript POINTS "sorted_result")
  /\ (Report.top_user_pts row = 0%Z
      \/ Report.top_user_pts row = subscript POINTS "top_user").

(** The path ends a directory part: it is empty or ends with a slash. *)
Definition dir_prefix (p : str) : Prop := p = [] \/ exists d, p = d ++ [0x2F].

(** Evidence of a joined row in [s]: the name and, later on the same
    line, the amount. *)
Definition same_line_evidence (name amount : string) (s : str) : Prop :=
  exists pre mid post,
    s = pre ++ lit name ++ mid ++ lit amount ++ post
    /\ Forall (fun c => c <> LF) mid.

(** Every word of the pattern [r] starts with a character that is not
    white space. *)
Definition starts_unspaced (r : Re.regex) : Prop :=
  forall w, Re.Matches r w -> exists c w', w = c :: w' /\ is_space c = false.

(** A text made of white space only; the empty text is one. *)
Definition blank (s : str) : Prop := Forall (fun c => is_space c = true) s.

End Props.
(* ===================================================================== *)
(** * Text: facts about the string operations *)
(* ===================================================================== *)

Section StrFacts.

Lemma eqb_eq (a b : str) : Str.eqb a b = true <-> a = b.
Proof.
  revert b. induction a as [|x a IH]; intros [|y b]; simpl; try easy.
  rewrite andb_true_iff, N.eqb_eq, IH. split.
  - intros [-> ->]. reflexivity.
  - intros [= -> ->]. auto.
Qed.

Lemma eqb_refl (a : str) : Str.eqb a a = true.
Proof. apply eqb_eq. reflexivity. Qed.

Lemma startswith_iff (p s : str) :
  startswith p s = true <-> exists q, s = p ++ q.
Proof.
  revert s. induction p as [|x p IH]; intros s; simpl.
  - split; eauto.
  - destruct s as [|y s].
    + split; [discriminate | intros [q [=]]].
    + rewrite andb_true_iff, N.eqb_eq, IH. split.
      * intros [-> [q ->]]. eauto.
      * intros [q [= -> ->]]. eauto.
Qed.

(** The scan [leftmost] returns the least offset whose suffix passes the
    test. *)
Lemma leftmost_Some (test : str -> bool) (s : str) (i j : nat) :
  leftmost test s i = Some j <->
  exists k, j = (i + k)%nat /\ (k <= length s)%nat /\ test (drop k s) = true
            /\ forall k', (k' < k)%nat -> test (drop k' s) = false.
Proof.
  revert i j. induction s as [|c s IH]; intros i j; simpl.
  - destruct (test []) eqn:E.
    + split.
      * intros [= <-]. exists 0%nat. repeat split; auto with lia.
      * intros (k & -> & Hk & _ & _). f_equal. simpl in Hk. lia.
    + split; [discriminate|].
      intros (k & _ & Hk & Ht & _). simpl in Hk.
      assert (k = 0)%nat as -> by lia. simpl in Ht. congruence.
  - destruct (test (c :: s)) eqn:E.
    + split.
      * intros [= <-]. exists 0%nat. repeat split; auto with lia.
      * intros (k & -> & _ & _ & Hmin). destruct k as [|k]; [f_equal; lia|].
        specialize (Hmin 0%nat ltac:(lia)). simpl in Hmin. congruence.
    + rewrite IH. split.
      * intros (k & -> & Hk & Ht & Hmin). exists (S k).
        repeat split; auto with lia.
        intros [|k'] Hlt; simpl; auto with lia.
      * intros (k & -> & Hk & Ht & Hmin). destruct k as [|k].
        { simpl in Ht. congruence. }
        exists k. repeat split; auto with lia.
        intros k' Hlt. apply (Hmin (S k')). lia.
Qed.

Lemma leftmost_None (test : str -> bool) (s : str) (i : nat) :
  leftmost test s i = None <->
  forall k, (k <= length s)%nat -> test (drop k s) = false.
Proof.
  revert i. induction s as [|c s IH]; intros i; simpl.
  - destruct (test []) eqn:E.
    + split; [discriminate|]. intros H. specialize (H 0%nat ltac:(lia)).
      simpl in H. congruence.
    + split; [|reflexivity]. intros _ k Hk.
      assert (k = 0)%nat as -> by lia. assumption.
  - destruct (test (c :: s)) eqn:E.
    + split; [discriminate|]. intros H. specialize (H 0%nat ltac:(lia)).
      simpl in H. congruence.
    + rewrite IH. split.
      * intros H [|k] Hk; simpl; auto with lia.
      * intros H k Hk. apply (H (S k)). lia.
Qed.

End StrFacts.

(* ===================================================================== *)
(** * Patterns: the matcher computes the language *)
(* ===================================================================== *)

Section ReFacts.
Import Re.

Lemma nullable_iff (r : regex) : nullable r = true <-> Matches r [].
Proof.
  induction r as [| |p|r1 IH1 r2 IH2|r1 IH1 r2 IH2|r IH]; simpl.
  - split; [discriminate | inversion 1].
  - split; [constructor | reflexivity].
  - split; [discriminate | inversion 1].
  - rewrite andb_true_iff, IH1, IH2. split.
    + intros [H1 H2]. apply (MCat _ _ [] [] H1 H2).
    + inversion 1 as [| |? ? s1 s2 H1 H2 E1 E2| | | |]; subst.
      apply app_eq_nil in E2 as [-> ->]. auto.
  - rewrite orb_true_iff, IH1, IH2. split.
    + intros [H|H]; [apply MAltL | apply MAltR]; assumption.
    + inversion 1; subst; auto.
  - split; [constructor | reflexivity].
Qed.

Lemma mkCat_iff (r1 r2 : regex) (s : str) :
  Matches (mkCat r1 r2) s <-> Matches (Cat r1 r2) s.
Proof.
  split.
  - destruct r1, r2; simpl; intros H; try assumption; try (inversion H; fail);
      apply (MCat _ _ [] s MEps H).
  - intros H. inversion H as [| |? ? s1 s2 H1 H2| | | |]; subst.
    destruct r1, r2; simpl; try (constructor; assumption);
      try (inversion H1; fail); try (inversion H2; fail);
      inversion H1; subst; simpl; assumption.
Qed.

Lemma mkAlt_iff (r1 r2 : regex) (s : str) :
  Matches (mkAlt r1 r2) s <-> Matches (Alt r1 r2) s.
Proof.
  split.
  - destruct r1, r2; simpl; intros H; try assumption;
      try (apply MAltR; assumption); try (apply MAltL; assumption).
  - intros H. inversion H; subst;
      destruct r1, r2; simpl; try assumption;
      try (apply MAltL; assumption); try (apply MAltR; assumption);
      match goal with H : Matches Void _ |- _ => inversion H end.
Qed.

(** A non-empty word of a starred pattern starts with a non-empty word
    of the pattern. *)
Lemma star_cons (r : regex) (c : N) (s : str) :
  Matches (Star r) (c :: s) ->
  exists s1 s2, s = s1 ++ s2 /\ Matches r (c :: s1) /\ Matches (Star r) s2.
Proof.
  intros H. remember (Star r) as r' eqn:Er. remember (c :: s) as w eqn:Ew.
  revert c s Ew.
  induction H as [| | | | | |r0 s1 s2 H1 _ H2 IH2]; intros a t Ew;
    try discriminate.
  injection Er as ->. destruct s1 as [|d s1]; simpl in Ew.
  - apply IH2; auto.
  - injection Ew as -> <-. eauto.
Qed.

Lemma deriv_iff (c : N) (r : regex) (s : str) :
  Matches (deriv c r) s <-> Matches r (c :: s).
Proof.
  revert s. induction r as [| |p|r1 IH1 r2 IH2|r1 IH1 r2 IH2|r IH]; intros s; simpl.
  - split; inversion 1.
  - split; inversion 1.
  - destruct (p c) eqn:E; split; intros H.
    + inversion H; subst. constructor. assumption.
    + inversion H; subst. constructor.
    + inversion H.
    + inversion H; subst. congruence.
  - rewrite mkAlt_iff. split.
    + intros H. inversion H as [| | |? ? ? H'|? ? ? H'| |]; subst.
      * apply mkCat_iff in H'.
        inversion H' as [| |? ? s1 s2 H1 H2| | | |]; subst.
        apply IH1 in H1. apply (MCat _ _ (c :: s1) s2 H1 H2).
      * destruct (nullable r1) eqn:En; [|inversion H'].
        apply nullable_iff in En. apply IH2 in H'.
        apply (MCat _ _ [] (c :: s) En H').
    + intros H. inversion H as [| |? ? s1 s2 H1 H2 E1 E2| | | |]; subst.
      destruct s1 as [|d s1]; simpl in E2.
      * subst s2. apply MAltR. apply nullable_iff in H1. rewrite H1.
        apply IH2. assumption.
      * injection E2 as -> <-. apply MAltL, mkCat_iff.
        constructor; [apply IH1|]; assumption.
  - rewrite mkAlt_iff. split.
    + inversion 1; subst; [apply MAltL, IH1 | apply MAltR, IH2]; assumption.
    + inversion 1; subst; [apply MAltL, IH1 | apply MAltR, IH2]; assumption.
  - rewrite mkCat_iff. split.
    + intros H. inversion H as [| |? ? s1 s2 H1 H2| | | |]; subst.
      apply IH in H1. apply (MStarS _ (c :: s1) s2 H1 H2).
    + intros H. apply star_cons in H as (s1 & s2 & -> & H1 & H2).
      constructor; [apply IH|]; assumption.
Qed.

(** [match_prefix] decides whether a prefix of the text is in the
    language. *)
Lemma match_prefix_iff (r : regex) (s : str) :
  match_prefix r s = true <-> exists p q, s = p ++ q /\ Matches r p.
Proof.
  revert r. induction s as [|c s IH]; intros r; simpl.
  - rewrite orb_false_r, nullable_iff. split.
    + intros H. exists [], []. auto.
    + intros (p & q & E & H). symmetry in E.
      apply app_eq_nil in E as [-> ->]. assumption.
  - rewrite orb_true_iff, nullable_iff, IH. split.
    + intros [H|(p & q & -> & H)].
      * exists [], (c :: s). auto.
      * exists (c :: p), q. split; [reflexivity|]. apply deriv_iff. assumption.
    + intros (p & q & E & H). destruct p as [|d p]; simpl in E.
      * left. assumption.
      * injection E as <- ->. right. exists p, q. split; [reflexivity|].
        apply deriv_iff. assumption.
Qed.

(** ** The words of the patterns of the graders *)

Lemma text_iff (t s : str) : Matches (text t) s <-> s = t.
Proof.
  revert s. induction t as [|c t IH]; intros s; simpl.
  - split; [inversion 1; reflexivity | intros ->; constructor].
  - split.
    + intros H. inversion H as [| |? ? s1 s2 H1 H2| | | |]; subst.
      inversion H1 as [|? d Hd| | | | |]; subst. apply N.eqb_eq in Hd as ->.
      apply IH in H2 as ->. reflexivity.
    + intros ->. apply (MCat _ _ [c] t).
      * constructor. apply N.eqb_refl.
      * apply IH. reflexivity.
Qed.

Lemma star_cls_iff (p : N -> bool) (s : str) :
  Matches (Star (Cls p)) s <-> Forall (fun c => p c = true) s.
Proof.
  split.
  - induction s as [|c s IH]; intros H; [constructor|].
    apply star_cons in H as (s1 & s2 & -> & H1 & H2).
    inversion H1; subst. simpl in *. constructor; auto.
  - induction 1 as [|c s Hc _ IH]; [constructor|].
    apply (MStarS _ [c] s); [constructor|]; assumption.
Qed.

Lemma plus_cls_iff (p : N -> bool) (s : str) :
  Matches (plus (Cls p)) s <-> s <> [] /\ Forall (fun c => p c = true) s.
Proof.
  unfold plus. split.
  - intros H. inversion H as [| |? ? s1 s2 H1 H2| | | |]; subst.
    inversion H1; subst. apply star_cls_iff in H2. split; [discriminate|].
    constructor; assumption.
  - intros [Hne H]. destruct s as [|c s]; [congruence|].
    inversion H; subst. apply (MCat _ _ [c] s); [constructor; assumption|].
    apply star_cls_iff. assumption.
Qed.

Lemma cat_iff (r1 r2 : regex) (s : str) :
  Matches (Cat r1 r2) s <-> exists s1 s2, s = s1 ++ s2 /\ Matches r1 s1 /\ Matches r2 s2.
Proof.
  split.
  - inversion 1; subst; eauto.
  - intros (s1 & s2 & -> & H1 & H2). constructor; assumption.
Qed.

End ReFacts.

(* ===================================================================== *)
(** * Searching a text *)
(* ===================================================================== *)

Section SearchFacts.
Import Spec.

Lemma drop_split (s : str) (k : nat) (t : str) :
  (k <= length s)%nat /\ drop k s = t <-> exists pre, s = pre ++ t /\ length pre = k.
Proof.
  split.
  - intros [Hk <-]. exists (take k s). rewrite take_drop, length_take. split; [reflexivity|lia].
  - intros (pre & -> & <-). rewrite length_app. split; [lia|].
    rewrite drop_app_length. reflexivity.
Qed.

Lemma suffix_test_iff (test : str -> bool) (Q : str -> Prop) (s : str) (k : nat) :
  (forall t, test t = true <-> exists p post, t = p ++ post /\ Q p) ->
  ((k <= length s)%nat /\ test (drop k s) = true
   <-> exists pre p post, s = pre ++ p ++ post /\ length pre = k /\ Q p).
Proof.
  intros Ht. rewrite Ht. split.
  - intros (Hk & p & post & E & HQ).
    destruct (proj1 (drop_split s k _) (conj Hk E)) as (pre & -> & <-). eauto 10.
  - intros (pre & p & post & -> & <- & HQ).
    destruct (proj2 (drop_split (pre ++ p ++ post) (length pre) (p ++ post))) as [Hk E]; eauto 10.
Qed.

Lemma match_at_iff (r : Re.regex) (s : str) (k : nat) :
  match_at r s k <-> (k <= length s)%nat /\ Re.match_prefix r (drop k s) = true.
Proof.
  unfold match_at. symmetry.
  apply (suffix_test_iff (Re.match_prefix r) (Re.Matches r)).
  intros t. apply match_prefix_iff.
Qed.

Lemma occurs_at_iff (sep s : str) (k : nat) :
  occurs_at sep s k <-> (k <= length s)%nat /\ startswith sep (drop k s) = true.
Proof.
  unfold occurs_at.
  rewrite (suffix_test_iff (startswith sep) (fun p => p = sep)).
  - split.
    + intros (pre & post & -> & <-). eauto 10.
    + intros (pre & p & post & -> & <- & ->). eauto.
  - intros t. rewrite startswith_iff. split.
    + intros [q ->]. eauto.
    + intros (p & post & -> & ->). eauto.
Qed.

Lemma at_bound (P : nat -> Prop) (s : str) (test : str -> bool) :
  (forall k, P k <-> (k <= length s)%nat /\ test (drop k s) = true) ->
  forall i,
    (leftmost test s 0 = Some i <-> P i /\ forall j, (j < i)%nat -> ~ P j)
    /\ (leftmost test s 0 = None <-> forall j, ~ P j).
Proof.
  intros HP i. split.
  - rewrite leftmost_Some. split.
    + intros (k & -> & Hk & Ht & Hmin). simpl. split.
      * apply HP. auto.
      * intros j Hj [_ Hj']%HP. rewrite (Hmin j Hj) in Hj'. discriminate.
    + intros [[Hk Ht]%HP Hmin]. exists i. repeat split; auto.
      intros k' Hlt. destruct (test (drop k' s)) eqn:E; [|reflexivity].
      exfalso. apply (Hmin k' Hlt), HP. split; [lia | assumption].
  - rewrite leftmost_None. split.
    + intros H j [Hj Ht]%HP. rewrite (H j Hj) in Ht. discriminate.
    + intros H k Hk. destruct (test (drop k s)) eqn:E; [|reflexivity].
      exfalso. apply (H k), HP. auto.
Qed.

(** [p.search(s)] returns the offset of the leftmost occurrence of a word
    of the pattern. *)
Lemma search_Some (r : Re.regex) (s : str) (i : nat) :
  Re.search r s = Some i <-> match_at r s i /\ forall j, (j < i)%nat -> ~ match_at r s j.
Proof. apply (at_bound _ s _ (match_at_iff r s) i). Qed.

Lemma search_None (r : Re.regex) (s : str) :
  Re.search r s = None <-> forall j, ~ match_at r s j.
Proof. apply (at_bound _ s _ (match_at_iff r s) 0%nat). Qed.

Lemma found_search (r : Re.regex) (s : str) :
  Re.found (Re.search r s) = true <-> exists i, match_at r s i.
Proof.
  destruct (Re.search r s) as [i|] eqn:E; simpl.
  - apply search_Some in E as [H _]. split; eauto.
  - rewrite search_None in E. split; [discriminate|]. intros [i H]. destruct (E i H).
Qed.

Lemma find_Some (sep s : str) (i : nat) :
  find sep s = Some i <-> occurs_at sep s i /\ forall j, (j < i)%nat -> ~ occurs_at sep s j.
Proof. apply (at_bound _ s _ (occurs_at_iff sep s) i). Qed.

Lemma find_None (sep s : str) :
  find sep s = None <-> forall j, ~ occurs_at sep s j.
Proof. apply (at_bound _ s _ (occurs_at_iff sep s) 0%nat). Qed.

(** The search window of the sort and top-user checks. *)
Lemma after_marker_window (marker s : str) :
  window marker s (Pandas.after_marker marker s).
Proof.
  unfold Pandas.after_marker, contains, split1.
  destruct (find marker s) as [i|] eqn:E; simpl.
  - left. apply find_Some in E as [(pre & post & -> & <-) Hmin].
    exists pre. split; [|assumption].
    replace (drop (length pre + length marker) (pre ++ marker ++ post)) with post;
      [reflexivity|].
    rewrite <- length_app, app_assoc, drop_app_length. reflexivity.
  - right. split; [|reflexivity]. apply find_None. assumption.
Qed.

Lemma window_unique (marker s w1 w2 : str) :
  window marker s w1 -> window marker s w2 -> w1 = w2.
Proof.
  assert (Hocc : forall pre w, s = pre ++ marker ++ w -> occurs_at marker s (length pre))
    by (intros pre w ->; exists pre, w; auto).
  intros [(p1 & E1 & M1)|[N1 ->]] [(p2 & E2 & M2)|[N2 ->]].
  - pose proof (Hocc _ _ E1) as O1. pose proof (Hocc _ _ E2) as O2.
    assert (length p1 = length p2) as Hl.
    { destruct (Nat.lt_trichotomy (length p1) (length p2)) as [H|[H|H]]; auto.
      - destruct (M2 _ H O1).
      - destruct (M1 _ H O2). }
    rewrite E1 in E2. apply app_inj_1 in E2 as [_ E2]; [|assumption].
    apply app_inv_head in E2. assumption.
  - destruct (N2 _ (Hocc _ _ E1)).
  - destruct (N1 _ (Hocc _ _ E2)).
  - reflexivity.
Qed.

(** The words of a [row] pattern. *)
Lemma row_iff (name count amount : string) (p : str) :
  Re.Matches (Pandas.row name count amount) p <->
  exists w1 w2, p = lit name ++ w1 ++ lit count ++ w2 ++ lit amount
                /\ blanks w1 /\ blanks w2.
Proof.
  unfold Pandas.row, Re.space, blanks. split.
  - intros H.
    apply cat_iff in H as (s1 & ? & -> & ->%text_iff & H).
    apply cat_iff in H as (w1 & ? & -> & H1%plus_cls_iff & H).
    apply cat_iff in H as (s2 & ? & -> & ->%text_iff & H).
    apply cat_iff in H as (w2 & ? & -> & H2%plus_cls_iff & ->%text_iff).
    eauto.
  - intros (w1 & w2 & -> & H1 & H2).
    repeat (apply Re.MCat); try (apply text_iff; reflexivity);
      apply plus_cls_iff; assumption.
Qed.

Lemma row_at_iff (name count amount : string) (t : str) (i : nat) :
  match_at (Pandas.row name count amount) t i <-> evidence_at name count amount t i.
Proof.
  unfold match_at, evidence_at. split.
  - intros (pre & p & post & -> & <- & (w1 & w2 & -> & H1 & H2)%row_iff).
    exists pre, w1, w2, post. repeat rewrite <- app_assoc. auto.
  - intros (pre & w1 & w2 & post & -> & <- & H1 & H2).
    exists pre, (lit name ++ w1 ++ lit count ++ w2 ++ lit amount), post.
    repeat rewrite <- app_assoc. repeat split; auto.
    apply row_iff. eauto.
Qed.


Lemma row_found (name count amount : string) (t : str) :
  Re.found (Re.search (Pandas.row name count amount) t) = true
  <-> evidence name count amount t.
Proof.
  rewrite found_search. unfold evidence.
  split; intros [i H]; exists i; apply row_at_iff, H.
Qed.

End SearchFacts.

(* ===================================================================== *)
(** * The tolerant checks of the pandas grader *)
(* ===================================================================== *)

Section Tolerant.
Import Spec.

(** C7. The tolerant check of the group task passes exactly when the
    output holds, somewhere, evidence of Alice's pair (the name, white
    space, 2, white space, 250) and, somewhere, evidence of Bob's pair
    (the name, white space, 1, white space, 200); neither condition
    refers to the position of the other. *)
Theorem grouped_fallback_iff (stdout : str) :
  Pandas.grouped_fallback stdout = true
  <-> evidence "Alice" "2" "250" stdout /\ evidence "Bob" "1" "200" stdout.
Proof.
  unfold Pandas.grouped_fallback, Pandas.RE_G_A, Pandas.RE_G_B.
  rewrite andb_true_iff, !row_found. reflexivity.
Qed.


End Tolerant.

(* ===================================================================== *)
(** * The answer extractor *)
(* ===================================================================== *)

Section Extractor.
Context {rt : PyRuntime}.
Import Spec.

Lemma lstrip_clean (s : str) : clean_head (lstrip s).
Proof.
  induction s as [|c s IH]; simpl; [exact I|].
  destruct (is_space c) eqn:E; [assumption | exact E].
Qed.

Lemma lstrip_id (t : str) : clean_head t -> lstrip t = t.
Proof. destruct t as [|c t]; simpl; [reflexivity | intros ->; reflexivity]. Qed.

Lemma lstrip_split (t : str) : exists pre, t = pre ++ lstrip t.
Proof.
  induction t as [|c t [pre IH]]; simpl; [exists []; reflexivity|].
  destruct (is_space c).
  - exists (c :: pre). simpl. congruence.
  - exists []. reflexivity.
Qed.

Lemma strip_idempotent (s : str) : strip (strip s) = strip s.
Proof.
  unfold strip, rstrip. set (x := lstrip s).
  destruct (lstrip_split (rev x)) as [pre Hpre].
  set (y := rev (lstrip (rev x))).
  assert (Hx : x = y ++ rev pre).
  { unfold y. rewrite <- rev_app_distr, <- Hpre, rev_involutive. reflexivity. }
  assert (Hy : clean_head y).
  { pose proof (lstrip_clean s) as Hc. fold x in Hc. rewrite Hx in Hc.
    destruct y; [exact I | exact Hc]. }
  rewrite (lstrip_id y Hy). unfold y at 1. rewrite rev_involutive.
  rewrite (lstrip_id _ (lstrip_clean (rev x))). reflexivity.
Qed.

Lemma next_nonblank_none (lines : list str) :
  Forall (fun l => strip l = []) lines -> next_nonblank lines = None.
Proof.
  induction 1 as [|l lines Hl _ IH]; simpl; [reflexivity|].
  rewrite Hl. assumption.
Qed.

Lemma next_nonblank_first (blank : list str) (l : str) (rest : list str) :
  Forall (fun l => strip l = []) blank -> strip l <> [] ->
  next_nonblank (blank ++ l :: rest) = Some (strip l).
Proof.
  intros Hb Hl. induction Hb as [|b blank Hb _ IH]; simpl.
  - destruct (strip l); [congruence | reflexivity].
  - rewrite Hb. assumption.
Qed.

Lemma extract_in_lines_absent (lines : list str) (header : str) :
  Forall (fun l => strip l <> header) lines ->
  extract_in_lines lines header = PyNone.
Proof.
  induction 1 as [|l lines Hl _ IH]; simpl; [reflexivity|].
  destruct (Str.eqb (strip l) header) eqn:E; [|assumption].
  apply eqb_eq in E. contradiction.
Qed.

Lemma extract_in_lines_first (pre : list str) (hl : str) (rest : list str) (header : str) :
  Forall (fun l => strip l <> header) pre -> strip hl = header ->
  extract_in_lines (pre ++ hl :: rest) header =
  match next_nonblank rest with
  | Some nxt => safe_literal_eval nxt
  | None => PyNone
  end.
Proof.
  intros Hpre Hhl. induction Hpre as [|l pre Hl _ IH]; simpl.
  - rewrite Hhl, eqb_refl. reflexivity.
  - destruct (Str.eqb (strip l) header) eqn:E; [|assumption].
    apply eqb_eq in E. contradiction.
Qed.

(** C4. The extractor looks only at the first line whose trimmed content
    is the marker.  Without such a line it returns [None].  With one, it
    returns [None] when only blank lines follow, and otherwise the literal
    read from the first following line that is not blank, [None] when
    that line is not a literal; what comes after that line, further
    markers included, plays no part.  The result is a function of the
    output text and the marker. *)
Theorem extract_after_header_spec (stdout header : str) :
  (Forall (fun l => strip l <> header) (splitlines stdout) ->
   extract_after_header stdout header = PyNone)
  /\ (forall pre hl rest,
        splitlines stdout = pre ++ hl :: rest ->
        Forall (fun l => strip l <> header) pre ->
        strip hl = header ->
        (Forall (fun l => strip l = []) rest ->
         extract_after_header stdout header = PyNone)
        /\ (forall blank l rest',
              rest = blank ++ l :: rest' ->
              Forall (fun l => strip l = []) blank ->
              strip l <> [] ->
              extract_after_header stdout header
              = match literal_eval (strip l) with
                | Some v => v
                | None => PyNone
                end)).
Proof.
  unfold extract_after_header. split.
  - apply extract_in_lines_absent.
  - intros pre hl rest -> Hpre Hhl.
    rewrite (extract_in_lines_first pre hl rest header Hpre Hhl). split.
    + intros Hrest. rewrite (next_nonblank_none rest Hrest). reflexivity.
    + intros blank l rest' -> Hblank Hl.
      rewrite (next_nonblank_first blank l rest' Hblank Hl).
      unfold safe_literal_eval. rewrite strip_idempotent. reflexivity.
Qed.

End Extractor.

(* ===================================================================== *)
(** * The strict comparator *)
(* ===================================================================== *)

Section ItemFacts.
Context {K V : Type}.

Lemma each_item_iff (P : K -> V -> Prop) (kvs : list (K * V)) :
  each_item P kvs <-> forall k v, In (k, v) kvs -> P k v.
Proof.
  induction kvs as [|[k0 v0] kvs IH]; simpl.
  - split; [intros _ k v [] | auto].
  - rewrite IH. split.
    + intros [H0 H] k v [[= <- <-]|Hin]; auto.
    + intros H. split; [|intros k v Hin]; apply H; auto.
Qed.

Lemma some_item_iff (P : K -> V -> Prop) (kvs : list (K * V)) :
  some_item P kvs <-> exists k v, In (k, v) kvs /\ P k v.
Proof.
  induction kvs as [|[k0 v0] kvs IH]; simpl.
  - split; [intros [] | intros (k & v & [] & _)].
  - rewrite IH. split.
    + intros [H|(k & v & Hin & H)]; eauto 6.
    + intros (k & v & Hin & HP). destruct Hin as [[= <- <-]|Hin]; eauto 6.
Qed.

Lemma dict_all_iff (f : K -> V -> bool) (kvs : list (K * V)) :
  dict_all f kvs = true <-> forall k v, In (k, v) kvs -> f k v = true.
Proof.
  induction kvs as [|[k0 v0] kvs IH]; simpl.
  - split; [intros _ k v [] | auto].
  - rewrite andb_true_iff, IH. split.
    + intros [H0 H] k v [[= <- <-]|Hin]; auto.
    + intros H. split; [|intros k v Hin]; apply H; auto.
Qed.

Lemma dict_get_Some (eqk : K -> bool) (kvs : list (K * V)) (v : V) :
  dict_get eqk kvs = Some v -> exists k, In (k, v) kvs /\ eqk k = true.
Proof.
  induction kvs as [|[k0 v0] kvs IH]; simpl; [discriminate|].
  destruct (eqk k0) eqn:E.
  - intros [= <-]. eauto.
  - intros (k & Hin & Hk)%IH. eauto.
Qed.

(** When at most one key passes [eqk], [dict_get] returns the value of
    the item whose key passes. *)
Lemma dict_get_found (eqk : K -> bool) (kvs : list (K * V)) (k : K) (v : V) :
  In (k, v) kvs -> eqk k = true ->
  (forall l1 k1 v1 l2 k2 v2 l3,
      kvs = l1 ++ (k1, v1) :: l2 ++ (k2, v2) :: l3 ->
      eqk k1 = true -> eqk k2 = true -> False) ->
  dict_get eqk kvs = Some v.
Proof.
  intros Hin Hk. induction kvs as [|[k0 v0] kvs IH]; intros Hsep; [destruct Hin|].
  simpl. destruct (eqk k0) eqn:E.
  - destruct Hin as [[= -> ->]|Hin]; [reflexivity|].
    apply in_split in Hin as (l2 & l3 & ->).
    destruct (Hsep [] k0 v0 l2 k v l3 eq_refl E Hk).
  - destruct Hin as [[= -> ->]|Hin]; [congruence|].
    apply IH; [assumption|].
    intros l1 k1 v1 l2 k2 v2 l3 ->.
    apply (Hsep ((k0, v0) :: l1) k1 v1 l2 k2 v2 l3). reflexivity.
Qed.

End ItemFacts.

Section SeqFacts.
Context {A B : Type}.

Lemma seq_eqb_iff (eq : A -> B -> bool) (xs : list A) (ys : list B) :
  seq_eqb eq xs ys = true <-> Forall2 (fun x y => eq x y = true) xs ys.
Proof.
  revert ys. induction xs as [|x xs IH]; intros [|y ys]; simpl.
  - split; [constructor | reflexivity].
  - split; [discriminate | inversion 1].
  - split; [discriminate | inversion 1].
  - rewrite andb_true_iff, IH. split.
    + intros [H1 H2]. constructor; assumption.
    + inversion 1; subst. auto.
Qed.

Lemma seq_rel_iff (R : A -> B -> Prop) (xs : list A) (ys : list B) :
  seq_rel R xs ys <-> Forall2 R xs ys.
Proof.
  revert ys. induction xs as [|x xs IH]; intros [|y ys]; simpl.
  - split; [constructor | auto].
  - split; [intros [] | inversion 1].
  - split; [intros [] | inversion 1].
  - rewrite IH. split.
    + intros [H1 H2]. constructor; assumption.
    + inversion 1; subst. auto.
Qed.

Lemma Forall2_In_impl (P Q : A -> B -> Prop) (xs : list A) (ys : list B) :
  Forall2 P xs ys ->
  (forall x y, In x xs -> In y ys -> P x y -> Q x y) ->
  Forall2 Q xs ys.
Proof.
  induction 1 as [|a b l1 l2 Hab _ IH]; intros H; constructor.
  - apply H; simpl; auto.
  - apply IH. intros x' y' Hx Hy. apply H; simpl; auto.
Qed.

(** Pigeonhole: when every element of [xs] is related to an element of
    [ys] and no element of [ys] is related to two places of [xs], [xs] is
    not the longer list. *)
Lemma pigeon (R : A -> B -> bool) (xs : list A) (ys : list B) :
  (forall x, In x xs -> exists y, In y ys /\ R x y = true) ->
  (forall l1 x1 l2 x2 l3 y,
      xs = l1 ++ x1 :: l2 ++ x2 :: l3 -> In y ys ->
      R x1 y = true -> R x2 y = true -> False) ->
  (length xs <= length ys)%nat.
Proof.
  revert ys. induction xs as [|x xs IH]; intros ys Htot Hsep; simpl; [lia|].
  destruct (Htot x (or_introl eq_refl)) as (y & Hy & Hxy).
  apply in_split in Hy as (m1 & m2 & ->).
  rewrite length_app. simpl.
  enough (length xs <= length (m1 ++ m2))%nat by (rewrite length_app in *; lia).
  apply IH.
  - intros x' Hx'. destruct (Htot x' (or_intror Hx')) as (y' & Hy' & Hxy').
    exists y'. split; [|assumption].
    apply in_app_or in Hy' as [Hy'|[<-|Hy']]; try (apply in_or_app; auto; fail).
    exfalso. apply in_split in Hx' as (l2 & l3 & ->).
    apply (Hsep [] x l2 x' l3 y eq_refl); auto.
    apply in_or_app. simpl. auto.
  - intros l1 x1 l2 x2 l3 y0 -> Hy0. apply (Hsep (x :: l1) x1 l2 x2 l3 y0 eq_refl).
    apply in_app_or in Hy0 as [Hy0|Hy0]; apply in_or_app; simpl; auto.
Qed.

(** When moreover [ys] is not the longer list, every element of [ys] is
    reached. *)
Lemma pigeon_onto (R : A -> B -> bool) (xs : list A) (ys : list B) :
  (forall x, In x xs -> exists y, In y ys /\ R x y = true) ->
  (forall l1 x1 l2 x2 l3 y,
      xs = l1 ++ x1 :: l2 ++ x2 :: l3 -> In y ys ->
      R x1 y = true -> R x2 y = true -> False) ->
  (length ys <= length xs)%nat ->
  forall y, In y ys -> exists x, In x xs /\ R x y = true.
Proof.
  intros Htot Hsep Hlen y Hy.
  destruct (existsb (fun x => R x y) xs) eqn:E.
  - apply existsb_exists in E. assumption.
  - exfalso. apply in_split in Hy as (m1 & m2 & ->).
    assert (Hno : forall x, In x xs -> R x y = false).
    { intros x Hx. destruct (R x y) eqn:Exy; [|reflexivity].
      assert (existsb (fun x => R x y) xs = true)
        by (apply existsb_exists; eauto).
      congruence. }
    assert (length xs <= length (m1 ++ m2))%nat.
    { apply (pigeon R).
      - intros x Hx. destruct (Htot x Hx) as (y' & Hy' & Hxy').
        exists y'. split; [|assumption].
        apply in_app_or in Hy' as [Hy'|[<-|Hy']]; try (apply in_or_app; auto; fail).
        rewrite (Hno x Hx) in Hxy'. discriminate.
      - intros l1 x1 l2 x2 l3 y' E' Hy'. apply (Hsep l1 x1 l2 x2 l3 y' E').
        apply in_app_or in Hy' as [Hy'|Hy']; apply in_or_app; simpl; auto. }
    rewrite !length_app in *. simpl in *. lia.
Qed.

End SeqFacts.

Section Comparator.
Import Spec.

(** ** Unfolding equations *)

Lemma py_eq_dict (xs ys : list (pyval * pyval)) :
  py_eq (PyDict xs) (PyDict ys)
  = (length xs =? length ys)%nat
    && dict_all (fun k v => match dict_get (py_eq k) ys with
                            | Some v' => py_eq v v'
                            | None => false
                            end) xs.
Proof. reflexivity. Qed.

Lemma deep_equal_dict (xs ys : list (pyval * pyval)) :
  deep_equal (PyDict xs) (PyDict ys)
  = (each_item (fun k v => some_item (fun k' v' => deep_equal k k' /\ deep_equal v v') ys) xs
     /\ each_item (fun k' v' => some_item (fun k v => deep_equal k k' /\ deep_equal v v') xs) ys).
Proof. reflexivity. Qed.

Lemma size_dict (kvs : list (pyval * pyval)) :
  size (PyDict kvs) = S (list_sum (map (fun kv => (size kv.1 + size kv.2)%nat) kvs)).
Proof. reflexivity. Qed.

Lemma size_pos (a : pyval) : (0 < size a)%nat.
Proof. destruct a; simpl; lia. Qed.

Lemma size_elem (x : pyval) (xs : list pyval) :
  In x xs -> (size x <= list_sum (map size xs))%nat.
Proof.
  induction xs as [|y xs IH]; simpl; [intros []|].
  intros [->|H]; [lia | apply IH in H; lia].
Qed.

Lemma size_item (k v : pyval) (kvs : list (pyval * pyval)) :
  In (k, v) kvs ->
  (size k + size v <= list_sum (map (fun kv => (size kv.1 + size kv.2)%nat) kvs))%nat.
Proof.
  induction kvs as [|kv kvs IH]; simpl; [intros []|].
  intros [->|H]; [simpl; lia | apply IH in H; lia].
Qed.

Lemma size_two_items (l1 l2 l3 : list (pyval * pyval)) (k1 v1 k2 v2 : pyval) :
  (size k1 + size k2
   < size (PyDict (l1 ++ (k1, v1) :: l2 ++ (k2, v2) :: l3)))%nat.
Proof.
  rewrite size_dict, map_app, list_sum_app. simpl.
  rewrite map_app, list_sum_app. simpl. lia.
Qed.

Lemma in_two {A : Type} (l1 : list A) (x1 : A) (l2 : list A) (x2 : A) (l3 : list A) :
  In x1 (l1 ++ x1 :: l2 ++ x2 :: l3) /\ In x2 (l1 ++ x1 :: l2 ++ x2 :: l3).
Proof.
  split.
  - apply in_or_app. right. left. reflexivity.
  - apply in_or_app. right. right. apply in_or_app. right. left. reflexivity.
Qed.

(** What [wf] says of a dict. *)
Lemma wf_dict_items (kvs : list (pyval * pyval)) :
  wf (PyDict kvs) = true ->
  (forall k v, In (k, v) kvs -> wf k = true /\ wf v = true)
  /\ (forall l1 k1 v1 l2 k2 v2 l3,
         kvs = l1 ++ (k1, v1) :: l2 ++ (k2, v2) :: l3 -> py_eq k1 k2 = false).
Proof.
  change (wf (PyDict kvs)) with (dict_wf wf wf key_fresh kvs).
  induction kvs as [|[k v] kvs IH]; simpl.
  - intros _. split; [intros k v [] | intros [|? ?]; discriminate].
  - rewrite !andb_true_iff. intros [[[Hk Hv] Hf] Hr].
    destruct (IH Hr) as [IH1 IH2]. split.
    + intros k' v' [[= <- <-]|Hin]; auto.
    + intros [|[k0 v0] l1] k1 v1 l2 k2 v2 l3; simpl; intros [= E1 E2 E3]; subst.
      * unfold key_fresh in Hf. apply negb_true_iff in Hf.
        destruct (py_eq k1 k2) eqn:E; [|reflexivity].
        rewrite <- Hf. symmetry. apply existsb_exists.
        exists (k2, v2). split; [|exact E].
        apply in_or_app. simpl. auto.
      * apply (IH2 l1 k1 v1 l2 k2 v2 l3 eq_refl).
Qed.

Lemma wf_seq (xs : list pyval) (x : pyval) :
  forallb wf xs = true -> In x xs -> wf x = true.
Proof. rewrite forallb_forall. auto. Qed.

(** ** Deep equality is symmetric and transitive *)

Lemma deep_equal_sym_n (n : nat) (a b : pyval) :
  (size a < n)%nat -> deep_equal a b -> deep_equal b a.
Proof.
  revert a b. induction n as [|n IH]; intros a b Hn H; [lia|].
  destruct a as [|x|x|s|xs|xs|xs], b as [|y|y|t|ys|ys|ys]; simpl in H |- *;
    try contradiction; try (symmetry; exact H); try exact I.
  - apply seq_rel_iff, Forall2_flip. apply seq_rel_iff in H.
    apply (Forall2_In_impl _ _ _ _ H). intros x y Hx Hy Hxy.
    apply IH; [|exact Hxy]. apply size_elem in Hx. simpl in Hn. lia.
  - apply seq_rel_iff, Forall2_flip. apply seq_rel_iff in H.
    apply (Forall2_In_impl _ _ _ _ H). intros x y Hx Hy Hxy.
    apply IH; [|exact Hxy]. apply size_elem in Hx. simpl in Hn. lia.
  - destruct H as [H1 H2]. rewrite each_item_iff in H1, H2.
    split; apply each_item_iff; intros k v Hin; apply some_item_iff.
    + apply H2, some_item_iff in Hin as (k' & v' & Hin' & Hk & Hv).
      pose proof (size_item _ _ _ Hin') as Hs. simpl in Hn.
      exists k', v'. repeat split; [assumption| |]; apply IH; auto; lia.
    + pose proof (size_item _ _ _ Hin) as Hs. simpl in Hn.
      apply H1, some_item_iff in Hin as (k' & v' & Hin' & Hk & Hv).
      exists k', v'. repeat split; [assumption| |]; apply IH; auto; lia.
Qed.

Lemma deep_equal_sym (a b : pyval) : deep_equal a b -> deep_equal b a.
Proof. apply (deep_equal_sym_n (S (size a))). lia. Qed.

Lemma Forall2_trans_in (xs ys zs : list pyval) :
  (forall x y z, In x xs -> deep_equal x y -> deep_equal y z -> deep_equal x z) ->
  Forall2 deep_equal xs ys -> Forall2 deep_equal ys zs -> Forall2 deep_equal xs zs.
Proof.
  intros Ht H. revert zs. induction H as [|x y xs ys Hxy _ IH]; intros zs Hz.
  - inversion Hz. constructor.
  - inversion Hz as [|? z ? zs' Hyz Hrest]; subst. constructor.
    + apply (Ht x y z); simpl; auto.
    + apply IH; [|assumption]. intros x' y' z' Hx'. apply Ht. simpl. auto.
Qed.

Lemma deep_equal_trans_n (n : nat) (a b c : pyval) :
  (size a < n)%nat -> deep_equal a b -> deep_equal b c -> deep_equal a c.
Proof.
  revert a b c. induction n as [|n IH]; intros a b c Hn Hab Hbc; [lia|].
  destruct a as [|x|x|s|xs|xs|xs], b as [|y|y|t|ys|ys|ys]; simpl in Hab;
    try contradiction;
    destruct c as [|z|z|u|zs|zs|zs]; simpl in Hbc |- *;
    try contradiction; try congruence; try exact I.
  - apply seq_rel_iff. apply seq_rel_iff in Hab, Hbc.
    apply (Forall2_trans_in xs ys zs); auto.
    intros x y z Hx. apply IH. apply size_elem in Hx. simpl in Hn. lia.
  - apply seq_rel_iff. apply seq_rel_iff in Hab, Hbc.
    apply (Forall2_trans_in xs ys zs); auto.
    intros x y z Hx. apply IH. apply size_elem in Hx. simpl in Hn. lia.
  - destruct Hab as [A1 A2], Hbc as [B1 B2].
    rewrite each_item_iff in A1, A2, B1, B2.
    split; apply each_item_iff; intros k v Hin; apply some_item_iff.
    + pose proof (size_item _ _ _ Hin) as Hs. simpl in Hn.
      apply A1, some_item_iff in Hin as (k' & v' & Hin' & Hk & Hv).
      apply B1, some_item_iff in Hin' as (k'' & v'' & Hin'' & Hk' & Hv').
      exists k'', v''. repeat split; [assumption| |].
      * apply (IH k k' k''); auto; lia.
      * apply (IH v v' v''); auto; lia.
    + apply B2, some_item_iff in Hin as (k' & v' & Hin' & Hk & Hv).
      apply A2, some_item_iff in Hin' as (k'' & v'' & Hin'' & Hk' & Hv').
      pose proof (size_item _ _ _ Hin'') as Hs. simpl in Hn.
      exists k'', v''. repeat split; [assumption| |].
      * apply (IH k'' k' k); auto; lia.
      * apply (IH v'' v' v); auto; lia.
Qed.

Lemma deep_equal_trans (a b c : pyval) :
  deep_equal a b -> deep_equal b c -> deep_equal a c.
Proof. apply (deep_equal_trans_n (S (size a))). lia. Qed.

(** ** The comparison computes deep equality *)

Lemma py_eq_scalar_shape (a b : pyval) :
  py_eq a b = true -> shape_of a = shape_of b.
Proof. destruct a, b; simpl; intros H; try discriminate; reflexivity. Qed.

Lemma py_eq_deep_n (n : nat) (a b : pyval) :
  (size a + size b < n)%nat -> wf a = true -> wf b = true ->
  (py_eq a b = true <-> deep_equal a b).
Proof.
  revert a b. induction n as [|n IH]; intros a b Hn Wa Wb; [lia|].
  destruct a as [|x|x|s|xs|xs|xs], b as [|y|y|t|ys|ys|ys];
    try (simpl; split; [discriminate | intros []]; fail).
  - simpl. tauto.
  - simpl. destruct x, y; simpl; split; congruence.
  - simpl. rewrite Z.eqb_eq. split; congruence.
  - simpl. rewrite Z.eqb_eq. split; congruence.
  - simpl. rewrite Z.eqb_eq. split; congruence.
  - simpl. apply eqb_eq.
  - simpl in *. rewrite seq_eqb_iff, seq_rel_iff.
    split; intros H; apply (Forall2_In_impl _ _ _ _ H); intros x y Hx Hy Hxy;
      pose proof (size_elem _ _ Hx); pose proof (size_elem _ _ Hy);
      apply (IH x y); eauto using wf_seq; lia.
  - simpl in *. rewrite seq_eqb_iff, seq_rel_iff.
    split; intros H; apply (Forall2_In_impl _ _ _ _ H); intros x y Hx Hy Hxy;
      pose proof (size_elem _ _ Hx); pose proof (size_elem _ _ Hy);
      apply (IH x y); eauto using wf_seq; lia.
  - (* two dicts *)
    destruct (wf_dict_items _ Wa) as [Wx Fx], (wf_dict_items _ Wb) as [Wy Fy].
    (* the comparison and deep equality agree on the parts *)
    assert (Hxy : forall k v k' v', In (k, v) xs -> In (k', v') ys ->
              (py_eq k k' = true <-> deep_equal k k')
              /\ (py_eq v v' = true <-> deep_equal v v')).
    { intros k v k' v' Hx Hy.
      pose proof (size_item _ _ _ Hx). pose proof (size_item _ _ _ Hy).
      destruct (Wx _ _ Hx), (Wy _ _ Hy). rewrite !size_dict in Hn.
      split; apply IH; auto; lia. }
    assert (Hxx : forall l1 k1 v1 l2 k2 v2 l3,
              xs = l1 ++ (k1, v1) :: l2 ++ (k2, v2) :: l3 ->
              deep_equal k1 k2 -> False).
    { intros l1 k1 v1 l2 k2 v2 l3 E Hd.
      pose proof (Fx _ _ _ _ _ _ _ E) as Hne.
      pose proof (size_two_items l1 l2 l3 k1 v1 k2 v2) as Hs. rewrite <- E in Hs.
      assert (In (k1, v1) xs /\ In (k2, v2) xs) as [I1 I2].
      { rewrite E. apply in_two. }
      destruct (Wx _ _ I1), (Wx _ _ I2). pose proof (size_pos (PyDict ys)).
      apply (IH k1 k2) in Hd; [congruence| lia | auto | auto]. }
    assert (Hyy : forall l1 k1 v1 l2 k2 v2 l3,
              ys = l1 ++ (k1, v1) :: l2 ++ (k2, v2) :: l3 ->
              deep_equal k1 k2 -> False).
    { intros l1 k1 v1 l2 k2 v2 l3 E Hd.
      pose proof (Fy _ _ _ _ _ _ _ E) as Hne.
      pose proof (size_two_items l1 l2 l3 k1 v1 k2 v2) as Hs. rewrite <- E in Hs.
      assert (In (k1, v1) ys /\ In (k2, v2) ys) as [I1 I2].
      { rewrite E. apply in_two. }
      destruct (Wy _ _ I1), (Wy _ _ I2). pose proof (size_pos (PyDict xs)).
      apply (IH k1 k2) in Hd; [congruence| lia | auto | auto]. }
    (* a key of one dict is equal to at most one key of the other *)
    assert (Kx : forall k' v', In (k', v') ys ->
              forall l1 k1 v1 l2 k2 v2 l3,
                xs = l1 ++ (k1, v1) :: l2 ++ (k2, v2) :: l3 ->
                py_eq k1 k' = true -> py_eq k2 k' = true -> False).
    { intros k' v' Hy l1 k1 v1 l2 k2 v2 l3 E H1 H2.
      assert (In (k1, v1) xs /\ In (k2, v2) xs) as [I1 I2].
      { rewrite E. apply in_two. }
      apply (Hxy _ _ _ _ I1 Hy) in H1. apply (Hxy _ _ _ _ I2 Hy) in H2.
      apply (Hxx _ _ _ _ _ _ _ E).
      apply (deep_equal_trans k1 k' k2); auto using deep_equal_sym. }
    assert (Ky : forall k v, In (k, v) xs ->
              forall l1 k1 v1 l2 k2 v2 l3,
                ys = l1 ++ (k1, v1) :: l2 ++ (k2, v2) :: l3 ->
                py_eq k k1 = true -> py_eq k k2 = true -> False).
    { intros k v Hx l1 k1 v1 l2 k2 v2 l3 E H1 H2.
      assert (In (k1, v1) ys /\ In (k2, v2) ys) as [I1 I2].
      { rewrite E. apply in_two. }
      apply (Hxy _ _ _ _ Hx I1) in H1. apply (Hxy _ _ _ _ Hx I2) in H2.
      apply (Hyy _ _ _ _ _ _ _ E).
      apply (deep_equal_trans k1 k k2); auto using deep_equal_sym. }
    set (R := fun x y : pyval * pyval => py_eq x.1 y.1 && py_eq x.2 y.2).
    assert (Sx : forall l1 x1 l2 x2 l3 y,
              xs = l1 ++ x1 :: l2 ++ x2 :: l3 -> In y ys ->
              R x1 y = true -> R x2 y = true -> False).
    { intros l1 [k1 v1] l2 [k2 v2] l3 [k' v'] E Hy [H1 _]%andb_true_iff [H2 _]%andb_true_iff.
      apply (Kx _ _ Hy _ _ _ _ _ _ _ E H1 H2). }
    assert (Sy : forall l1 y1 l2 y2 l3 x,
              ys = l1 ++ y1 :: l2 ++ y2 :: l3 -> In x xs ->
              flip R y1 x = true -> flip R y2 x = true -> False).
    { intros l1 [k1 v1] l2 [k2 v2] l3 [k v] E Hx [H1 _]%andb_true_iff [H2 _]%andb_true_iff.
      apply (Ky _ _ Hx _ _ _ _ _ _ _ E H1 H2). }
    rewrite py_eq_dict, deep_equal_dict, andb_true_iff, Nat.eqb_eq, dict_all_iff,
      !each_item_iff.
    split.
    + intros [Hlen Hall].
      assert (Tx : forall x, In x xs -> exists y, In y ys /\ R x y = true).
      { intros [k v] Hx. specialize (Hall _ _ Hx).
        destruct (dict_get (py_eq k) ys) as [v'|] eqn:G; [|discriminate].
        apply dict_get_Some in G as (k' & Hy & Hk).
        exists (k', v'). split; [assumption|]. unfold R. simpl. rewrite Hk, Hall. reflexivity. }
      split.
      * intros k v Hx. apply some_item_iff.
        destruct (Tx _ Hx) as ([k' v'] & Hy & [H1 H2]%andb_true_iff). simpl in *.
        exists k', v'. split; [assumption|].
        split; apply (Hxy _ _ _ _ Hx Hy); assumption.
      * intros k' v' Hy. apply some_item_iff.
        destruct (pigeon_onto R xs ys Tx Sx ltac:(lia) _ Hy)
          as ([k v] & Hx & [H1 H2]%andb_true_iff). simpl in *.
        exists k, v. split; [assumption|].
        split; apply (Hxy _ _ _ _ Hx Hy); assumption.
    + intros [H1 H2].
      assert (Tx : forall x, In x xs -> exists y, In y ys /\ R x y = true).
      { intros [k v] Hx. pose proof (H1 _ _ Hx) as Hx'.
        apply some_item_iff in Hx' as (k' & v' & Hy & Hk & Hv).
        exists (k', v'). split; [assumption|]. unfold R. simpl.
        apply andb_true_iff. split; apply (Hxy _ _ _ _ Hx Hy); assumption. }
      assert (Ty : forall y, In y ys -> exists x, In x xs /\ flip R y x = true).
      { intros [k' v'] Hy. pose proof (H2 _ _ Hy) as Hy'.
        apply some_item_iff in Hy' as (k & v & Hx & Hk & Hv).
        exists (k, v). split; [assumption|]. unfold flip, R. simpl.
        apply andb_true_iff. split; apply (Hxy _ _ _ _ Hx Hy); assumption. }
      split.
      * apply Nat.le_antisymm; [apply (pigeon R xs ys Tx Sx) | apply (pigeon (flip R) ys xs Ty Sy)].
      * intros k v Hx.
        destruct (Tx _ Hx) as ([k' v'] & Hy & [Hk Hv]%andb_true_iff). simpl in *.
        rewrite (dict_get_found (py_eq k) ys k' v' Hy Hk); [assumption|].
        intros l1 k1 v1 l2 k2 v2 l3 E. apply (Ky _ _ Hx _ _ _ _ _ _ _ E).
Qed.

(** C8. On values as Python builds them, the strict comparator passes
    exactly when the two values are deeply equal: sequences position by
    position, mappings by their key/value pairs whatever the insertion
    order, scalars by value; and it never passes on two values of
    different shape, such as a list and a tuple or a sequence and a
    mapping. *)
Theorem compare_deep_iff (a b : pyval) :
  wf a = true -> wf b = true ->
  (compare_deep a b = true <-> deep_equal a b)
  /\ (shape_of a <> shape_of b -> compare_deep a b = false).
Proof.
  intros Wa Wb. split.
  - apply (py_eq_deep_n (S (size a + size b))); auto.
  - intros Hs. unfold compare_deep. destruct (py_eq a b) eqn:E; [|reflexivity].
    apply py_eq_scalar_shape in E. contradiction.
Qed.

End Comparator.

(* ===================================================================== *)
(** * The scorers *)
(* ===================================================================== *)

(** Closes an equation between two closed breakdowns paired with their
    remarks. *)
Ltac same_scores :=
  apply pair_equal_spec; split;
  [ apply map_eq; intros ?; vm_compute; reflexivity | reflexivity ].

Section Scoring.
Context {rt : PyRuntime}.
Import Spec.

(** The first loop stores, under each key, what the extractor finds
    after the header of that key. *)
Lemma parse_all_lookup (HEADERS : list (string * str)) (stdout : str) (key : string) :
  HEADERS = Pandas.HEADERS \/ HEADERS = PyList.HEADERS ->
  In key KEYS ->
  parse_all HEADERS stdout !! key
  = Some (extract_after_header stdout (subscript HEADERS key)).
Proof.
  unfold parse_all. generalize (extract_after_header stdout). intros f.
  intros [-> | ->] [<-|[<-|[<-|[<-|[]]]]]; vm_compute; reflexivity.
Qed.

Lemma pandas_score_key (stdout : str) (parsed : gmap string pyval) (key : string)
    (breakdown : gmap string Z) (remarks : list str) :
  Pandas.score_key stdout parsed key (breakdown, remarks)
  = if strict_pass (parsed !!! key) key || Pandas.fallback key stdout
    then (<[key := subscript Pandas.POINTS key]> breakdown, remarks)
    else (breakdown, remarks ++ [lit key ++ lit " mismatch"]).
Proof.
  unfold Pandas.score_key.
  destruct (strict_pass (parsed !!! key) key), (Pandas.fallback key stdout); reflexivity.
Qed.

Lemma pandas_score_all (stdout : str) (parsed : gmap string pyval) :
  let pass := fun k => strict_pass (parsed !!! k) k || Pandas.fallback k stdout in
  Pandas.score_all stdout parsed
  = (tally Pandas.POINTS pass, remarks_for pass (fun k => lit k ++ lit " mismatch")).
Proof.
  intros pass. unfold Pandas.score_all, tally, remarks_for, Pandas.POINTS, KEYS.
  cbn [map fst snd concat app]. subst pass. cbn beta.
  rewrite (pandas_score_key stdout parsed "joined").
  destruct (strict_pass (parsed !!! "joined"%string) "joined" || Pandas.fallback "joined" stdout);
    rewrite (pandas_score_key stdout parsed "grouped");
    destruct (strict_pass (parsed !!! "grouped"%string) "grouped" || Pandas.fallback "grouped" stdout);
    rewrite (pandas_score_key stdout parsed "sorted_result");
    destruct (strict_pass (parsed !!! "sorted_result"%string) "sorted_result"
              || Pandas.fallback "sorted_result" stdout);
    rewrite (pandas_score_key stdout parsed "top_user");
    destruct (strict_pass (parsed !!! "top_user"%string) "top_user"
              || Pandas.fallback "top_user" stdout);
    same_scores.
Qed.

Lemma pandas_grade (stdout : str) :
  Pandas.grade_from_stdout stdout
  = (sum_values (tally Pandas.POINTS (pandas_pass stdout)),
     tally Pandas.POINTS (pandas_pass stdout),
     remarks_for (pandas_pass stdout) (fun k => lit k ++ lit " mismatch")).
Proof.
  unfold Pandas.grade_from_stdout. cbv zeta. rewrite pandas_score_all. cbn [fst snd].
  assert (E : forall k, In k KEYS ->
            strict_pass (parse_all Pandas.HEADERS stdout !!! k) k || Pandas.fallback k stdout
            = pandas_pass stdout k).
  { intros k Hk. unfold pandas_pass, strict_ok.
    rewrite (lookup_total_correct _ _ _ (parse_all_lookup _ stdout k (or_introl eq_refl) Hk)).
    reflexivity. }
  unfold tally, remarks_for, Pandas.POINTS, KEYS in *. cbn [map fst snd concat app].
  rewrite !E by (simpl; auto 6). reflexivity.
Qed.

Lemma list_extract_fold (stdout : str) :
  foldl (PyList.extract_key stdout) (∅, []) PyList.HEADERS
  = (parse_all PyList.HEADERS stdout,
     remarks_for (fun k => negb (is_none (extract_after_header stdout
                                            (subscript PyList.HEADERS k))))
                 list_missing).
Proof.
  unfold parse_all, remarks_for, KEYS, PyList.HEADERS.
  cbn [foldl map concat fst snd app]. unfold PyList.extract_key. cbn [fst snd].
  change (subscript _ "joined") with (PyList.mark ++ lit " Joined Result:").
  change (subscript _ "grouped") with (PyList.mark ++ lit " Grouped Result:").
  change (subscript _ "sorted_result") with (PyList.mark ++ lit " Sorted Result:").
  change (subscript _ "top_user") with (PyList.cup ++ lit " Top User:").
  destruct (is_none (extract_after_header stdout (PyList.mark ++ lit " Joined Result:"))),
           (is_none (extract_after_header stdout (PyList.mark ++ lit " Grouped Result:"))),
           (is_none (extract_after_header stdout (PyList.mark ++ lit " Sorted Result:"))),
           (is_none (extract_after_header stdout (PyList.cup ++ lit " Top User:")));
    reflexivity.
Qed.

Lemma list_score_key (parsed : gmap string pyval) (kp : string * Z)
    (breakdown : gmap string Z) (remarks : list str) :
  PyList.score_key parsed (breakdown, remarks) kp
  = if strict_pass (default PyNone (parsed !! kp.1)) kp.1
    then (<[kp.1 := subscript PyList.POINTS kp.1]> breakdown, remarks)
    else (breakdown,
          remarks ++ [lit kp.1 ++ lit ": expected " ++ py_str (subscript EXPECTED kp.1)
                      ++ lit ", got " ++ py_str (default PyNone (parsed !! kp.1))]).
Proof. reflexivity. Qed.

Lemma list_score_all (parsed : gmap string pyval) (remarks : list str) :
  let obj := fun k => default PyNone (parsed !! k) in
  let pass := fun k => strict_pass (obj k) k in
  PyList.score_all parsed remarks
  = (tally PyList.POINTS pass,
     remarks ++ remarks_for pass
       (fun k => lit k ++ lit ": expected " ++ py_str (subscript EXPECTED k)
                 ++ lit ", got " ++ py_str (obj k))).
Proof.
  intros obj pass. unfold PyList.score_all, tally, remarks_for, PyList.POINTS, KEYS.
  cbn [foldl map fst snd concat app]. subst pass obj. cbn beta.
  rewrite (list_score_key parsed ("joined"%string, 15%Z)). cbn [fst snd].
  destruct (strict_pass (default PyNone (parsed !! "joined"%string)) "joined");
    rewrite (list_score_key parsed ("grouped"%string, 30%Z)); cbn [fst snd];
    destruct (strict_pass (default PyNone (parsed !! "grouped"%string)) "grouped");
    rewrite (list_score_key parsed ("sorted_result"%string, 15%Z)); cbn [fst snd];
    destruct (strict_pass (default PyNone (parsed !! "sorted_result"%string)) "sorted_result");
    rewrite (list_score_key parsed ("top_user"%string, 10%Z)); cbn [fst snd];
    destruct (strict_pass (default PyNone (parsed !! "top_user"%string)) "top_user");
    (apply pair_equal_spec; split;
     [ apply map_eq; intros ?; vm_compute; reflexivity
     | rewrite <- ?app_assoc, ?app_nil_r; reflexivity ]).
Qed.

Lemma list_grade (stdout : str) :
  PyList.grade_from_stdout stdout
  = (sum_values (tally PyList.POINTS (list_pass stdout)),
     tally PyList.POINTS (list_pass stdout),
     remarks_for (fun k => negb (is_none (extract_after_header stdout
                                            (subscript PyList.HEADERS k))))
                 list_missing
     ++ remarks_for (list_pass stdout) (list_mismatch stdout)).
Proof.
  unfold PyList.grade_from_stdout. rewrite list_extract_fold, list_score_all.
  assert (E : forall k, In k KEYS ->
            default PyNone (parse_all PyList.HEADERS stdout !! k)
            = extract_after_header stdout (subscript PyList.HEADERS k)).
  { intros k Hk. rewrite (parse_all_lookup _ stdout k (or_intror eq_refl) Hk). reflexivity. }
  unfold tally, remarks_for, list_pass, strict_ok, list_mismatch, PyList.POINTS, KEYS in *.
  cbn [map fst snd concat app].
  rewrite !E by (simpl; auto 6). reflexivity.
Qed.

End Scoring.

Section Tally.
Import Spec.

(** A breakdown with the four task keys: its entries, its keys and the
    sum of its values. *)
Lemma four_keys (v1 v2 v3 v4 : Z) :
  let m : gmap string Z :=
    list_to_map [("joined", v1); ("grouped", v2); ("sorted_result", v3); ("top_user", v4)]%string in
  m !! "joined"%string = Some v1 /\ m !! "grouped"%string = Some v2
  /\ m !! "sorted_result"%string = Some v3 /\ m !! "top_user"%string = Some v4
  /\ dom m = list_to_set KEYS
  /\ sum_values m = (v1 + v2 + v3 + v4)%Z.
Proof.
  intros m. subst m.
  split; [vm_compute; reflexivity|]. split; [vm_compute; reflexivity|].
  split; [vm_compute; reflexivity|]. split; [vm_compute; reflexivity|].
  split.
  - cbn [list_to_map foldr fst snd KEYS list_to_set].
    rewrite !dom_insert_L, dom_empty_L. reflexivity.
  - unfold sum_values. cbn [list_to_map foldr fst snd].
    rewrite !map_fold_insert_L; try (intros; lia); try (vm_compute; reflexivity).
    rewrite map_fold_empty. lia.
Qed.

Lemma zero_breakdown_tally (POINTS : list (string * Z)) :
  POINTS = Pandas.POINTS \/ POINTS = PyList.POINTS ->
  zero_breakdown POINTS = tally POINTS (fun _ => false).
Proof. intros [-> | ->]; apply map_eq; intros k; vm_compute; reflexivity. Qed.

End Tally.

Section TallyFacts.
Import Spec.
Variable POINTS : list (string * Z).
Hypothesis known : POINTS = Pandas.POINTS \/ POINTS = PyList.POINTS.
Variable pass : string -> bool.

Lemma tally_lookup (k : string) :
  In k KEYS -> tally POINTS pass !! k = Some (if pass k then subscript POINTS k else 0%Z).
Proof.
  destruct known as [-> | ->]; intros [<-|[<-|[<-|[<-|[]]]]];
    unfold tally; cbn [map fst snd Pandas.POINTS PyList.POINTS]; apply four_keys.
Qed.

Lemma tally_dom : dom (tally POINTS pass) = list_to_set KEYS.
Proof.
  destruct known as [-> | ->];
    unfold tally; cbn [map fst snd Pandas.POINTS PyList.POINTS]; apply four_keys.
Qed.


Lemma tally_sum :
  sum_values (tally POINTS pass)
  = ((if pass "joined" then subscript POINTS "joined" else 0)
     + (if pass "grouped" then subscript POINTS "grouped" else 0)
     + (if pass "sorted_result" then subscript POINTS "sorted_result" else 0)
     + (if pass "top_user" then subscript POINTS "top_user" else 0))%Z.
Proof.
  destruct known as [-> | ->];
    unfold tally; cbn [map fst snd Pandas.POINTS PyList.POINTS]; apply four_keys.
Qed.


End TallyFacts.

(* ===================================================================== *)
(** * Scores and records *)
(* ===================================================================== *)

Section Records.
Context {rt : PyRuntime}.
Import Spec.


Lemma pandas_score_run_failed (stdout stderr : str) (code : Z) :
  code <> 0%Z ->
  Pandas.score_run stdout stderr code
  = (0%Z, zero_breakdown Pandas.POINTS, [failure_remark code stderr]).
Proof.
  intros H. unfold Pandas.score_run. apply Z.eqb_neq in H. rewrite H. reflexivity.
Qed.

Lemma list_score_run_failed (stdout stderr : str) (code : Z) :
  code <> 0%Z ->
  PyList.score_run stdout stderr code
  = (0%Z, zero_breakdown PyList.POINTS, [failure_remark code stderr]).
Proof.
  intros H. unfold PyList.score_run. apply Z.eqb_neq in H. rewrite H. reflexivity.
Qed.



(** The record of a submission carries the scores of [score_run] on what
    [run_student_file] returned, and the remarks joined by a bar. *)
Lemma pandas_grade_file_fields (sid fname : str) (o : run_outcome) :
  exists stdout stderr,
    Pandas.run_student_file o = (stdout, stderr, exit_code o)
    /\ let s := Pandas.score_run stdout stderr (exit_code o) in
       Pandas.grade_file sid fname o
       = mkGradeResult sid fname s.1.1 s.1.2 (join (lit " | ") s.2) stdout stderr.
Proof.
  unfold Pandas.grade_file.
  destruct o as [out err rc|out err|msg]; simpl Pandas.run_student_file; simpl exit_code;
    eexists _, _; (split; [reflexivity|]);
    match goal with |- context [Pandas.score_run ?a ?b ?c] =>
      destruct (Pandas.score_run a b c) as [[t b0] r] end; reflexivity.
Qed.

Lemma list_grade_file_fields (sid fname : str) (o : run_outcome) :
  exists stdout stderr,
    PyList.run_student_file o = (stdout, stderr, exit_code o)
    /\ let s := PyList.score_run stdout stderr (exit_code o) in
       PyList.grade_file sid fname o
       = mkGradeResult sid fname s.1.1 s.1.2 (join (lit " | ") s.2) stdout stderr.
Proof.
  unfold PyList.grade_file.
  destruct o as [out err rc|out err|msg]; simpl PyList.run_student_file; simpl exit_code;
    eexists _, _; (split; [reflexivity|]);
    match goal with |- context [PyList.score_run ?a ?b ?c] =>
      destruct (PyList.score_run a b c) as [[t b0] r] end; reflexivity.
Qed.




End Records.

Section Awards.
Context {rt : PyRuntime}.
Import Spec.


Lemma points_nonzero (POINTS : list (string * Z)) (k : string) :
  POINTS = Pandas.POINTS \/ POINTS = PyList.POINTS -> In k KEYS ->
  subscript POINTS k <> 0%Z.
Proof. intros [-> | ->] [<-|[<-|[<-|[<-|[]]]]]; vm_compute; discriminate. Qed.

Lemma tally_awarded (POINTS : list (string * Z)) (pass : string -> bool) (k : string) :
  POINTS = Pandas.POINTS \/ POINTS = PyList.POINTS -> In k KEYS ->
  (tally POINTS pass !! k = Some (subscript POINTS k) <-> pass k = true)
  /\ (pass k = false -> tally POINTS pass !! k = Some 0%Z).
Proof.
  intros known Hk. rewrite (tally_lookup POINTS known pass k Hk).
  pose proof (points_nonzero POINTS k known Hk).
  destruct (pass k); split; try split; intros; try congruence; auto.
Qed.


End Awards.


(** C5, on the pandas grader.  On the output of scenario A the header
    of the join task, as the pandas grader spells it, is not found: the
    extractor returns [None], the strict comparator does not pass, and
    the five points of the task come from the tolerant matcher. *)
Theorem scenario_a_pandas `{rt : PyRuntime} :
  extract_after_header Samples.scenario_a (subscript Pandas.HEADERS "joined") = PyNone
  /\ Spec.strict_ok Pandas.HEADERS Samples.scenario_a "joined" = false
  /\ Pandas.fallback "joined" Samples.scenario_a = true
  /\ (Pandas.grade_from_stdout Samples.scenario_a).1.2 !! "joined"%string = Some 5%Z.
Proof. repeat split; vm_compute; reflexivity. Qed.

(** On the same output the python-list grader finds the header, reads
    the literal and gives the fifteen points of the task through the
    strict comparator. *)
Lemma scenario_a_list `{rt : PyRuntime} :
  literal_eval Samples.joined_line = Some (subscript EXPECTED "joined") ->
  extract_after_header Samples.scenario_a (subscript PyList.HEADERS "joined")
  = subscript EXPECTED "joined"
  /\ Spec.strict_ok PyList.HEADERS Samples.scenario_a "joined" = true
  /\ (PyList.grade_from_stdout Samples.scenario_a).1.2 !! "joined"%string = Some 15%Z.
Proof.
  intros Hlit.
  assert (E : extract_after_header Samples.scenario_a (subscript PyList.HEADERS "joined")
              = subscript EXPECTED "joined").
  { unfold extract_after_header.
    change (splitlines Samples.scenario_a)
      with ([] ++ ([0x2705] ++ lit " Joined Result:") :: [Samples.joined_line]).
    rewrite extract_in_lines_first; [| constructor | vm_compute; reflexivity].
    assert (N : next_nonblank [Samples.joined_line] = Some (strip Samples.joined_line)).
    { apply (next_nonblank_first [] Samples.joined_line []);
        [constructor | vm_compute; discriminate]. }
    rewrite N.
    unfold safe_literal_eval.
    change (strip (strip Samples.joined_line)) with Samples.joined_line.
    rewrite Hlit. reflexivity. }
  assert (S : Spec.strict_ok PyList.HEADERS Samples.scenario_a "joined" = true).
  { unfold Spec.strict_ok. rewrite E. vm_compute. reflexivity. }
  split; [exact E|]. split; [exact S|].
  rewrite list_grade. cbn [fst snd].
  apply (tally_awarded PyList.POINTS); [auto | simpl; auto | exact S].
Qed.

Lemma scenario_a_list_run :
  (@PyList.grade_from_stdout Reader.runtime Samples.scenario_a).1.2 !! "joined"%string
  = Some 15%Z.
Proof. vm_compute. reflexivity. Qed.

(* ===================================================================== *)
(** * Letter case in the tolerant checks *)
(* ===================================================================== *)

Section LetterCase.
Import Spec Re.

(** Turns an equation between two tests on characters into arithmetic. *)
Ltac char_arith :=
  apply eq_iff_eq_true;
  repeat first [ rewrite orb_true_iff | rewrite andb_true_iff
               | rewrite N.eqb_eq | rewrite N.leb_le ];
  lia.

Lemma lower_range (c : N) : is_ascii_lower c = true <-> 0x61 <= c <= 0x7A.
Proof. unfold is_ascii_lower. rewrite andb_true_iff, !N.leb_le. reflexivity. Qed.

Lemma upper_range (c : N) : is_ascii_upper c = true <-> 0x41 <= c <= 0x5A.
Proof. unfold is_ascii_upper. rewrite andb_true_iff, !N.leb_le. reflexivity. Qed.

Lemma not_lower_range (c : N) : is_ascii_lower c = false <-> c < 0x61 \/ 0x7A < c.
Proof.
  unfold is_ascii_lower. rewrite andb_false_iff, !N.leb_gt. reflexivity.
Qed.

Lemma not_upper_range (c : N) : is_ascii_upper c = false <-> c < 0x41 \/ 0x5A < c.
Proof.
  unfold is_ascii_upper. rewrite andb_false_iff, !N.leb_gt. reflexivity.
Qed.

Lemma folds_to_upper (lo c : N) :
  is_ascii_lower lo = true -> folds_to lo (ascii_upper c) = folds_to lo c.
Proof.
  intros H%lower_range. unfold folds_to, ascii_upper.
  destruct (is_ascii_lower c) eqn:E; [|reflexivity].
  apply lower_range in E. char_arith.
Qed.

Lemma folds_to_lower (lo c : N) :
  is_ascii_lower lo = true -> folds_to lo (ascii_lower c) = folds_to lo c.
Proof.
  intros H%lower_range. unfold folds_to, ascii_lower.
  destruct (is_ascii_upper c) eqn:E; [|reflexivity].
  apply upper_range in E. char_arith.
Qed.

Lemma lower_is_lower (c : N) :
  is_ascii_upper c || is_ascii_lower c = true -> is_ascii_lower (ascii_lower c) = true.
Proof.
  unfold ascii_lower. destruct (is_ascii_upper c) eqn:E; simpl.
  - intros _. apply upper_range in E. apply lower_range. lia.
  - auto.
Qed.

Lemma ichr_respects_upper (c0 : N) : respects ascii_upper (ichr c0).
Proof.
  unfold ichr. destruct (is_ascii_upper c0 || is_ascii_lower c0) eqn:E; simpl; intros c.
  - apply folds_to_upper, lower_is_lower, E.
  - apply orb_false_iff in E as [E1%not_upper_range E2%not_lower_range].
    unfold ascii_upper. destruct (is_ascii_lower c) eqn:Ec; [|reflexivity].
    apply lower_range in Ec. char_arith.
Qed.

Lemma ichr_respects_lower (c0 : N) : respects ascii_lower (ichr c0).
Proof.
  unfold ichr. destruct (is_ascii_upper c0 || is_ascii_lower c0) eqn:E; simpl; intros c.
  - apply folds_to_lower, lower_is_lower, E.
  - apply orb_false_iff in E as [E1%not_upper_range E2%not_lower_range].
    unfold ascii_lower. destruct (is_ascii_upper c) eqn:Ec; [|reflexivity].
    apply upper_range in Ec. char_arith.
Qed.

Lemma itext_respects (f : N -> N) (s : str) :
  (forall c0, respects f (ichr c0)) -> respects f (itext s).
Proof. intros H. induction s as [|c s IH]; simpl; auto. Qed.

Lemma space_respects_upper (c : N) : is_space (ascii_upper c) = is_space c.
Proof.
  unfold ascii_upper. destruct (is_ascii_lower c) eqn:E; [|reflexivity].
  apply lower_range in E. unfold is_space. char_arith.
Qed.

Lemma space_respects_lower (c : N) : is_space (ascii_lower c) = is_space c.
Proof.
  unfold ascii_lower. destruct (is_ascii_upper c) eqn:E; [|reflexivity].
  apply upper_range in E. unfold is_space. char_arith.
Qed.

(** ** Matching the image of a text *)

Lemma respects_mkCat (f : N -> N) (r1 r2 : regex) :
  respects f r1 -> respects f r2 -> respects f (mkCat r1 r2).
Proof. destruct r1, r2; simpl; tauto. Qed.

Lemma respects_mkAlt (f : N -> N) (r1 r2 : regex) :
  respects f r1 -> respects f r2 -> respects f (mkAlt r1 r2).
Proof. destruct r1, r2; simpl; tauto. Qed.

Lemma respects_deriv (f : N -> N) (r : regex) (c : N) :
  respects f r -> respects f (deriv c r).
Proof.
  induction r as [| |p|r1 IH1 r2 IH2|r1 IH1 r2 IH2|r IH]; simpl; try tauto.
  - intros _. destruct (p c); exact I.
  - intros [H1 H2]. apply respects_mkAlt.
    + apply respects_mkCat; auto.
    + destruct (nullable r1); simpl; auto.
  - intros [H1 H2]. apply respects_mkAlt; auto.
  - intros H. apply respects_mkCat; simpl; auto.
Qed.

Lemma deriv_image (f : N -> N) (r : regex) (c : N) :
  respects f r -> deriv (f c) r = deriv c r.
Proof.
  induction r as [| |p|r1 IH1 r2 IH2|r1 IH1 r2 IH2|r IH]; simpl; try reflexivity.
  - intros H. rewrite H. reflexivity.
  - intros [H1 H2]. rewrite IH1, IH2 by assumption. reflexivity.
  - intros [H1 H2]. rewrite IH1, IH2 by assumption. reflexivity.
  - intros H. rewrite IH by assumption. reflexivity.
Qed.

Lemma match_prefix_image (f : N -> N) (r : regex) (s : str) :
  respects f r -> match_prefix r (map f s) = match_prefix r s.
Proof.
  revert r. induction s as [|c s IH]; intros r H; simpl; [reflexivity|].
  rewrite (deriv_image f r c H), IH; [reflexivity|].
  apply respects_deriv, H.
Qed.

Lemma leftmost_image (f : N -> N) (test : str -> bool) (s : str) (i : nat) :
  (forall t, test (map f t) = test t) ->
  leftmost test (map f s) i = leftmost test s i.
Proof.
  intros H. revert i. induction s as [|c s IH]; intros i.
  - reflexivity.
  - change (map f (c :: s)) with (f c :: map f s). cbn [leftmost].
    change (f c :: map f s) with (map f (c :: s)). rewrite H, IH. reflexivity.
Qed.

Lemma search_image (f : N -> N) (r : regex) (s : str) :
  respects f r -> search r (map f s) = search r s.
Proof.
  intros H. unfold search. apply leftmost_image.
  intros t. apply match_prefix_image, H.
Qed.

Lemma top_patterns_respect :
  respects ascii_upper Pandas.RE_TOP_NAME /\ respects ascii_upper Pandas.RE_TOP_VAL
  /\ respects ascii_lower Pandas.RE_TOP_NAME /\ respects ascii_lower Pandas.RE_TOP_VAL.
Proof.
  assert (Hu : forall s, respects ascii_upper (itext s))
    by (intros s; apply itext_respects, ichr_respects_upper).
  assert (Hl : forall s, respects ascii_lower (itext s))
    by (intros s; apply itext_respects, ichr_respects_lower).
  unfold Pandas.RE_TOP_NAME, Pandas.RE_TOP_VAL, plus, space.
  cbn [respects].
  repeat match goal with |- _ /\ _ => split end;
    auto using space_respects_upper, space_respects_lower.
Qed.

(** ** Patterns that spell a name *)

Lemma upper_not_lower (c : N) : is_ascii_lower (ascii_upper c) = false.
Proof.
  unfold ascii_upper. destruct (is_ascii_lower c) eqn:E; [|exact E].
  apply lower_range in E. apply not_lower_range. lia.
Qed.

(** A pattern that starts with a text holding a small letter finds
    nothing in a text put in capitals. *)
Lemma search_capitals_None (t : str) (r : regex) (c : N) (s : str) :
  In c t -> is_ascii_lower c = true ->
  search (Cat (text t) r) (map ascii_upper s) = None.
Proof.
  intros Hc Hl. apply search_None.
  intros j (pre & p & post & E & _ & (p1 & p2 & -> & ->%text_iff & _)%cat_iff).
  assert (Hin : In c (map ascii_upper s)).
  { rewrite E. apply in_or_app. right. apply in_or_app. left.
    apply in_or_app. left. exact Hc. }
  apply in_map_iff in Hin as (c' & <- & _).
  rewrite upper_not_lower in Hl. discriminate.
Qed.

(** C10. The two patterns of the top-user check ignore letter case: the
    lines [name: ALICE] and [TOTAL_SPENT 250] are evidence, and putting a
    text in capitals or in small letters does not change where they
    match.  The patterns of the join, group and sort checks spell the
    names exactly: they find nothing in a text put in capitals.  On the
    output of a correct pandas solution put in capitals, the top-user
    task gets its points and the other three get none. *)
Theorem top_user_ignores_case `{rt : PyRuntime} :
  (found (search Pandas.RE_TOP_NAME (lit "name: ALICE")) = true
   /\ found (search Pandas.RE_TOP_VAL (lit "TOTAL_SPENT 250")) = true)
  /\ (forall s,
         search Pandas.RE_TOP_NAME (map ascii_upper s) = search Pandas.RE_TOP_NAME s
         /\ search Pandas.RE_TOP_VAL (map ascii_upper s) = search Pandas.RE_TOP_VAL s
         /\ search Pandas.RE_TOP_NAME (map ascii_lower s) = search Pandas.RE_TOP_NAME s
         /\ search Pandas.RE_TOP_VAL (map ascii_lower s) = search Pandas.RE_TOP_VAL s)
  /\ (forall s,
         Forall (fun r => search r (map ascii_upper s) = None)
                [Pandas.RE_JOINED_A1; Pandas.RE_JOINED_A2; Pandas.RE_JOINED_B1;
                 Pandas.RE_G_A; Pandas.RE_G_B])
  /\ (let out := Samples.pandas_output in
      let capitals := map ascii_upper out in
      (Pandas.joined_fallback out = true /\ Pandas.grouped_fallback out = true
       /\ Pandas.sorted_fallback out = true /\ Pandas.top_user_fallback out = true)
      /\ (Pandas.joined_fallback capitals = false /\ Pandas.grouped_fallback capitals = false
          /\ Pandas.sorted_fallback capitals = false
          /\ Pandas.top_user_fallback capitals = true)
      /\ map (fun k => (Pandas.grade_from_stdout capitals).1.2 !! k) KEYS
         = [Some 0%Z; Some 0%Z; Some 0%Z; Some 5%Z]).
Proof.
  destruct top_patterns_respect as (U1 & U2 & L1 & L2).
  split; [split; vm_compute; reflexivity|].
  split; [intros s; repeat split; apply search_image; assumption|].
  split.
  - intros s. repeat constructor.
    + apply (search_capitals_None (lit "Alice") _ 0x6C); [simpl; auto | reflexivity].
    + apply (search_capitals_None (lit "Alice") _ 0x6C); [simpl; auto | reflexivity].
    + apply (search_capitals_None (lit "Bob") _ 0x6F); [simpl; auto | reflexivity].
    + apply (search_capitals_None (lit "Alice") _ 0x6C); [simpl; auto | reflexivity].
    + apply (search_capitals_None (lit "Bob") _ 0x6F); [simpl; auto | reflexivity].
  - cbv zeta. repeat split; vm_compute; reflexivity.
Qed.

End LetterCase.

(* ===================================================================== *)
(** * The statements at work on sample outputs *)
(* ===================================================================== *)

Section Examples.
Import Spec.

Example splitlines_blank_line :
  splitlines (lit "a" ++ [LF; LF] ++ lit "b" ++ [LF]) = [lit "a"; []; lit "b"].
Proof. reflexivity. Qed.

Example splitlines_crlf :
  splitlines (lit "a" ++ [CR; LF] ++ lit "b") = [lit "a"; lit "b"].
Proof. reflexivity. Qed.

Example splitlines_edges : splitlines [LF] = [[]] /\ splitlines [] = [].
Proof. split; reflexivity. Qed.

Example strip_both_ends : strip (lit "  ab c " ++ [LF]) = lit "ab c".
Proof. reflexivity. Qed.

Example split1_leftmost :
  split1 (lit "::") (lit "a::b::c") = [lit "a"; lit "b::c"]
  /\ split1 (lit "::") (lit "abc") = [lit "abc"].
Proof. split; reflexivity. Qed.

Example of_int_digits :
  of_int 124 = lit "124" /\ of_int 0 = lit "0" /\ of_int (-9) = lit "-9"
  /\ of_int 1000 = lit "1000".
Proof. repeat split; reflexivity. Qed.

Example reader_reads :
  Reader.literal_eval (lit "( 'a' , {1: [2, 3,], 'k': None} )")
  = Some (PyTuple [PyStr (lit "a");
                   PyDict [(PyInt 1, PyList [PyInt 2; PyInt 3]); (PyStr (lit "k"), PyNone)]])
  /\ Reader.literal_eval (lit "{1: 2, True: 3}") = Some (PyDict [(PyInt 1, PyInt 3)])
  /\ Reader.literal_eval (lit "{[1]: 2}") = None
  /\ Reader.literal_eval Samples.joined_line = Some (subscript EXPECTED "joined").
Proof. repeat split; vm_compute; reflexivity. Qed.

(** The expected answers are well formed. *)
Example expected_wf : forallb (fun kv => wf kv.2) EXPECTED = true.
Proof. vm_compute. reflexivity. Qed.

(** Lists compare in order, a list is not a tuple, and the order of the
    items of a dict does not count. *)
Example compare_deep_cases :
  compare_deep (PyList [PyInt 1; PyInt 2]) (PyList [PyInt 2; PyInt 1]) = false
  /\ compare_deep (PyList [PyInt 1; PyInt 2]) (PyTuple [PyInt 1; PyInt 2]) = false
  /\ compare_deep (PyList []) (PyDict []) = false
  /\ compare_deep Samples.dict_ab Samples.dict_ba = true.
Proof. repeat split; reflexivity. Qed.

(** The group check passes on the aggregate table whatever the order of
    its two rows. *)
Example grouped_either_order :
  Pandas.grouped_fallback Samples.table = true
  /\ Pandas.grouped_fallback Samples.table_reversed = true.
Proof. split; vm_compute; reflexivity. Qed.

(** Scenarios B and C: under the marker of the sort task, the table
    passes the sort check when Alice's row comes first and fails it when
    Bob's row comes first. *)
Example sorted_scenarios :
  Pandas.sorted_fallback (Pandas.sorted_marker ++ [LF] ++ Samples.table) = true
  /\ Pandas.sorted_fallback (Pandas.sorted_marker ++ [LF] ++ Samples.table_reversed) = false
  /\ Pandas.sorted_fallback
       (Samples.table_reversed ++ Pandas.sorted_marker ++ [LF] ++ Samples.table) = true.
Proof. repeat split; vm_compute; reflexivity. Qed.

End Examples.

(* ===================================================================== *)
(** * The statements with hypotheses, at sample inputs *)
(* ===================================================================== *)




Lemma extract_after_header_spec_witness :
  splitlines Samples.twice_marked
  = [lit "intro"] ++ lit "  HDR:  " :: ([[]; lit "   "] ++ lit " [1, 2] " :: [lit "HDR:"; lit "3"])
  /\ Forall (fun l => strip l <> lit "HDR:") [lit "intro"]
  /\ strip (lit "  HDR:  ") = lit "HDR:"
  /\ Forall (fun l => strip l = []) [[]; lit "   "]
  /\ strip (lit " [1, 2] ") <> []
  /\ @extract_after_header Reader.runtime Samples.twice_marked (lit "HDR:")
     = PyList [PyInt 1; PyInt 2].
Proof.
  assert (H1 : splitlines Samples.twice_marked
               = [lit "intro"] ++ lit "  HDR:  "
                 :: ([[]; lit "   "] ++ lit " [1, 2] " :: [lit "HDR:"; lit "3"]))
    by (vm_compute; reflexivity).
  assert (H2 : Forall (fun l => strip l <> lit "HDR:") [lit "intro"])
    by (repeat constructor; vm_compute; discriminate).
  assert (H3 : strip (lit "  HDR:  ") = lit "HDR:") by (vm_compute; reflexivity).
  assert (H4 : Forall (fun l => strip l = []) [[]; lit "   "])
    by (repeat constructor; vm_compute; reflexivity).
  assert (H5 : strip (lit " [1, 2] ") <> []) by (vm_compute; discriminate).
  repeat (split; [assumption|]).
  destruct (@extract_after_header_spec Reader.runtime Samples.twice_marked (lit "HDR:"))
    as [_ H].
  destruct (H _ _ _ H1 H2 H3) as [_ H'].
  rewrite (H' _ _ _ eq_refl H4 H5). vm_compute. reflexivity.
Defined.

Lemma compare_deep_iff_witness :
  wf Samples.dict_ab = true /\ wf Samples.dict_ba = true
  /\ (compare_deep Samples.dict_ab Samples.dict_ba = true
      <-> deep_equal Samples.dict_ab Samples.dict_ba)
  /\ deep_equal Samples.dict_ab Samples.dict_ba.
Proof.
  assert (Ha : wf Samples.dict_ab = true) by reflexivity.
  assert (Hb : wf Samples.dict_ba = true) by reflexivity.
  destruct (compare_deep_iff Samples.dict_ab Samples.dict_ba Ha Hb) as [Hiff _].
  repeat (split; [assumption|]). apply Hiff. reflexivity.
Defined.

(* ===================================================================== *)
(** * File names *)
(* ===================================================================== *)

Section FileNames.
Import Files Props.

Lemma rfind_None (c : N) (p : str) : rfind c p = None <-> ~ In c p.
Proof.
  induction p as [|d p IH]; simpl; [tauto|].
  destruct (rfind c p) as [i|].
  - split; [discriminate|]. intros H. exfalso.
    assert (~ In c p) by tauto. apply IH in H0. discriminate.
  - destruct (N.eqb_spec d c) as [->|Hne].
    + split; [discriminate | tauto].
    + split; [|reflexivity]. intros _ [E|H]; [congruence|].
      apply (proj1 IH eq_refl H).
Qed.

Lemma rfind_Some (c : N) (p : str) (i : nat) :
  rfind c p = Some i ->
  exists pre post, p = pre ++ c :: post /\ length pre = i /\ ~ In c post.
Proof.
  revert i. induction p as [|d p IH]; simpl; [discriminate|]. intros i.
  destruct (rfind c p) as [j|] eqn:E.
  - intros [= <-]. destruct (IH j eq_refl) as (pre & post & -> & <- & H).
    exists (d :: pre), post. auto.
  - destruct (N.eqb_spec d c) as [->|Hne]; [|discriminate].
    intros [= <-]. exists [], p. repeat split. apply rfind_None, E.
Qed.

(** The last occurrence, when what follows it is known. *)
Lemma rfind_last (c : N) (pre post : str) :
  ~ In c post -> rfind c (pre ++ c :: post) = Some (length pre).
Proof.
  intros H. induction pre as [|d pre IH]; simpl.
  - apply rfind_None in H. rewrite H, N.eqb_refl. reflexivity.
  - rewrite IH. reflexivity.
Qed.

Lemma basename_no_slash (p : str) : ~ In 0x2F (basename p).
Proof.
  unfold basename. destruct (rfind 0x2F p) as [i|] eqn:E.
  - apply rfind_Some in E as (pre & post & -> & <- & H).
    replace (drop (S (length pre)) (pre ++ 0x2F :: post)) with post; [exact H|].
    change (0x2F :: post) with ([0x2F] ++ post). rewrite app_assoc.
    replace (S (length pre)) with (length (pre ++ [0x2F]))
      by (rewrite length_app; simpl; lia).
    rewrite drop_app_length. reflexivity.
  - apply rfind_None in E. exact E.
Qed.

Lemma basename_of (prefix base : str) :
  dir_prefix prefix -> ~ In 0x2F base -> basename (prefix ++ base) = base.
Proof.
  intros [->|[d ->]] H; unfold basename.
  - simpl. apply rfind_None in H. rewrite H. reflexivity.
  - rewrite <- app_assoc. simpl. rewrite (rfind_last 0x2F d base H).
    change (0x2F :: base) with ([0x2F] ++ base). rewrite app_assoc.
    replace (S (length d)) with (length (d ++ [0x2F]))
      by (rewrite length_app; simpl; lia).
    apply drop_app_length.
Qed.

Lemma upto_underscore_first (t rest : str) :
  Forall (fun d => d <> 0x5F /\ d <> LF) t ->
  upto_underscore (t ++ 0x5F :: rest) = Some t.
Proof.
  induction 1 as [|d t [H1 H2] _ IH]; simpl; [reflexivity|].
  apply N.eqb_neq in H1, H2. rewrite H1, H2, IH. reflexivity.
Qed.

Lemma upto_underscore_Some (s g : str) :
  upto_underscore s = Some g ->
  exists rest, s = g ++ 0x5F :: rest /\ Forall (fun d => d <> 0x5F /\ d <> LF) g.
Proof.
  revert g. induction s as [|d s IH]; simpl; [discriminate|]. intros g.
  destruct (N.eqb_spec d 0x5F) as [->|H1].
  - intros [= <-]. exists s. split; [reflexivity | constructor].
  - destruct (N.eqb_spec d LF) as [->|H2]; [discriminate|].
    destruct (upto_underscore s) as [g'|]; [|discriminate].
    intros [= <-]. destruct (IH g' eq_refl) as (rest & -> & Hg).
    exists rest. split; [reflexivity|]. constructor; auto.
Qed.

(** X1. The student id is the first character of the base name of the
    path together with what follows it up to the next underscore: for a
    path whose base name is [c t _ rest], where [c] is not a line feed and
    [t] holds no underscore and no line feed, the id is [c t].  The first
    character itself may be an underscore. *)
Theorem student_id_up_to_underscore (prefix : str) (c : N) (t rest : str) :
  dir_prefix prefix ->
  ~ In 0x2F (c :: t ++ 0x5F :: rest) ->
  c <> LF ->
  Forall (fun d => d <> 0x5F /\ d <> LF) t ->
  student_id_from_filename (prefix ++ c :: t ++ 0x5F :: rest) = c :: t.
Proof.
  intros Hp Hs Hc Ht. unfold student_id_from_filename.
  rewrite (basename_of prefix _ Hp Hs). simpl.
  apply N.eqb_neq in Hc. rewrite Hc, (upto_underscore_first t rest Ht). reflexivity.
Qed.

Lemma match_id_nonempty (base g : str) : match_id base = Some g -> g <> [].
Proof.
  destruct base as [|c s]; simpl; [discriminate|].
  destruct (c =? LF); [discriminate|].
  destruct (upto_underscore s); [|discriminate]. intros [= <-]. discriminate.
Qed.

Lemma splitext_root_nonempty (p : str) : p <> [] -> splitext_root p <> [].
Proof.
  intros Hp. unfold splitext_root.
  destruct (rfind 0x2E p) as [dot|] eqn:E; [|exact Hp].
  destruct (rfind 0x2F p) as [sep|] eqn:Es;
    match goal with |- context [(?a <=? dot)%nat] => destruct (a <=? dot)%nat eqn:El end;
    try exact Hp;
    match goal with |- context [forallb ?f ?l] => destruct (forallb f l) eqn:Ef end;
    try exact Hp.
  - (* a character that is not a dot lies before the last dot *)
    destruct dot as [|dot]; [apply Nat.leb_le in El; lia|].
    destruct p; [congruence | simpl; discriminate].
  - destruct dot as [|dot]; [simpl in Ef; discriminate|].
    destruct p; [congruence | simpl; discriminate].
Qed.

(** X2. The student id is empty only for a path without a base name
    (the empty path, or a path that ends with a slash); and it never holds
    a slash. *)
Theorem student_id_empty_iff (path : str) :
  (student_id_from_filename path = [] <-> basename path = [])
  /\ ~ In 0x2F (student_id_from_filename path).
Proof.
  unfold student_id_from_filename. split.
  - destruct (match_id (basename path)) as [g|] eqn:E.
    + split.
      * intros ->. destruct (match_id_nonempty _ _ E eq_refl).
      * intros H. rewrite H in E. discriminate.
    + split.
      * intros H. destruct (basename path) eqn:Eb; [reflexivity|].
        exfalso. apply (splitext_root_nonempty (n :: l)); [discriminate | exact H].
      * intros ->. reflexivity.
  - pose proof (basename_no_slash path) as Hb.
    destruct (match_id (basename path)) as [g|] eqn:E.
    + destruct (basename path) as [|c s]; simpl in E; [discriminate|].
      destruct (c =? LF); [discriminate|].
      destruct (upto_underscore s) as [g'|] eqn:Eu; [|discriminate].
      injection E as <-. apply upto_underscore_Some in Eu as (rest & -> & _).
      intros Hin. apply Hb. destruct Hin as [->|Hin]; [left; reflexivity|].
      right. apply in_or_app. left. exact Hin.
    + unfold splitext_root.
      destruct (rfind 0x2E (basename path)) as [dot|]; [|exact Hb].
      destruct (rfind 0x2F (basename path)) as [sep|];
        match goal with |- context [(?a <=? dot)%nat] => destruct (a <=? dot)%nat end;
        try exact Hb;
        match goal with |- context [forallb ?f ?l] => destruct (forallb f l) end;
        try exact Hb;
        intros Hin; apply Hb;
        rewrite <- (take_drop dot (basename path)); apply in_or_app; left; exact Hin.
Qed.

Lemma upto_underscore_None (s : str) : ~ In 0x5F s -> upto_underscore s = None.
Proof.
  induction s as [|d s IH]; simpl; [reflexivity|]. intros H.
  destruct (N.eqb_spec d 0x5F) as [->|_]; [tauto|].
  destruct (d =? LF); [reflexivity|]. rewrite IH; tauto.
Qed.

(** X3. Without an underscore in the base name, the student id is the
    base name without its extension: for a path whose base name is
    [stem.ext], where [ext] holds no dot and [stem] holds a character
    other than a dot, the id is [stem]. *)
Theorem student_id_without_underscore (prefix stem ext : str) :
  dir_prefix prefix ->
  ~ In 0x2F (stem ++ 0x2E :: ext) ->
  ~ In 0x5F (stem ++ 0x2E :: ext) ->
  ~ In 0x2E ext ->
  (exists d, In d stem /\ d <> 0x2E) ->
  student_id_from_filename (prefix ++ stem ++ 0x2E :: ext) = stem.
Proof.
  intros Hp Hs Hu Hd (d & Hin & Hne). unfold student_id_from_filename.
  rewrite (basename_of prefix _ Hp Hs).
  assert (Em : match_id (stem ++ 0x2E :: ext) = None).
  { destruct stem as [|c s]; [destruct Hin|]. simpl in *.
    destruct (c =? LF); [reflexivity|].
    rewrite upto_underscore_None; [reflexivity | tauto]. }
  rewrite Em. unfold splitext_root.
  rewrite (rfind_last 0x2E stem ext Hd).
  apply rfind_None in Hs. rewrite Hs. simpl Nat.leb. cbv iota.
  rewrite Nat.sub_0_r, drop_0, take_app_length.
  assert (Ef : forallb (N.eqb 0x2E) stem = false).
  { apply not_true_iff_false. intros Hf. rewrite forallb_forall in Hf.
    apply Hf in Hin. apply N.eqb_eq in Hin. congruence. }
  rewrite Ef. reflexivity.
Qed.

End FileNames.

(* ===================================================================== *)
(** * The loop of [main] and the report *)
(* ===================================================================== *)

Section MainLoop.
Context {rt : PyRuntime}.
Import Spec Props.
Variable abspath : str -> str.
Variable script : str.
Variable run : str -> run_outcome.

Lemma foldl_keep {A B : Type} (skip : A -> bool) (f : A -> B) (l : list A) (acc : list B) :
  foldl (fun res x => if skip x then res else res ++ [f x]) acc l
  = acc ++ map f (List.filter (fun x => negb (skip x)) l).
Proof.
  revert acc. induction l as [|x l IH]; intros acc; simpl.
  - rewrite app_nil_r. reflexivity.
  - rewrite IH. destruct (skip x); simpl; [reflexivity|].
    rewrite <- app_assoc. reflexivity.
Qed.

Lemma filter_all {A : Type} (keep : A -> bool) (l : list A) :
  (forall x, keep x = true) -> List.filter keep l = l.
Proof.
  intros H. induction l as [|x l IH]; simpl; [reflexivity|].
  rewrite H, IH. reflexivity.
Qed.

(** X4. The loop of the python-list grader never skips a file when the
    script has an absolute path: it compares a base name, which holds no
    slash, with that path, so there is one result per file, in the order
    of the files.  The loop of the pandas grader leaves out exactly the
    files whose absolute path is that of the script. *)
Theorem main_results (files : list str) :
  ((exists t, abspath script = 0x2F :: t) ->
   Report.list_results abspath script run files
   = map (fun fpath => PyList.grade_file (Files.student_id_from_filename fpath)
                                         (Files.basename fpath) (run fpath)) files)
  /\ Report.pandas_results abspath script run files
     = map (fun fpath => Pandas.grade_file (Files.student_id_from_filename fpath)
                                           (Files.basename fpath) (run fpath))
           (List.filter (fun fpath => negb (Str.eqb (abspath fpath) (abspath script)))
                        files).
Proof.
  unfold Report.list_results, Report.pandas_results. rewrite !foldl_keep. simpl.
  split; [|reflexivity].
  intros [t Ht]. f_equal. apply filter_all. intros fpath.
  apply negb_true_iff, not_true_iff_false. intros E%eqb_eq.
  apply (basename_no_slash fpath). rewrite E, Ht. left. reflexivity.
Qed.

Lemma run_scores_tally (POINTS : list (string * Z)) (total : Z) (bd : gmap string Z) :
  POINTS = Pandas.POINTS \/ POINTS = PyList.POINTS ->
  (exists pass, bd = tally POINTS pass /\ total = sum_values (tally POINTS pass)) ->
  forall sid fname rm out err,
    dom bd = list_to_set KEYS
    /\ row_adds_up POINTS (Report.row_of (mkGradeResult sid fname total bd rm out err)).
Proof.
  intros known (pass & -> & ->) sid fname rm out err.
  split; [apply (tally_dom POINTS known)|].
  assert (L : forall k, In k KEYS ->
            tally POINTS pass !!! k = if pass k then subscript POINTS k else 0%Z).
  { intros k Hk. apply lookup_total_correct, (tally_lookup POINTS known pass k Hk). }
  unfold row_adds_up, Report.row_of. simpl.
  rewrite !L by (simpl; auto 6). rewrite (tally_sum POINTS known).
  split; [reflexivity|].
  destruct (pass "joined"), (pass "grouped"), (pass "sorted_result"), (pass "top_user");
    auto 10.
Qed.

Lemma pandas_file_row (sid fname : str) (o : run_outcome) :
  dom (breakdown (Pandas.grade_file sid fname o)) = list_to_set KEYS
  /\ row_adds_up Pandas.POINTS (Report.row_of (Pandas.grade_file sid fname o)).
Proof.
  destruct (pandas_grade_file_fields sid fname o) as (out & err & _ & ->).
  apply (run_scores_tally Pandas.POINTS); [auto|].
  destruct (Z.eq_dec (exit_code o) 0%Z) as [E|E].
  - rewrite E. unfold Pandas.score_run. simpl negb. cbv iota. rewrite pandas_grade.
    eexists. split; reflexivity.
  - rewrite (pandas_score_run_failed _ _ _ E). exists (fun _ => false). simpl. split.
    + apply zero_breakdown_tally. auto.
    + rewrite tally_sum by auto. reflexivity.
Qed.

Lemma list_file_row (sid fname : str) (o : run_outcome) :
  dom (breakdown (PyList.grade_file sid fname o)) = list_to_set KEYS
  /\ row_adds_up PyList.POINTS (Report.row_of (PyList.grade_file sid fname o)).
Proof.
  destruct (list_grade_file_fields sid fname o) as (out & err & _ & ->).
  apply (run_scores_tally PyList.POINTS); [auto|].
  destruct (Z.eq_dec (exit_code o) 0%Z) as [E|E].
  - rewrite E. unfold PyList.score_run. simpl negb. cbv iota. rewrite list_grade.
    eexists. split; reflexivity.
  - rewrite (list_score_run_failed _ _ _ E). exists (fun _ => false). simpl. split.
    + apply zero_breakdown_tally. auto.
    + rewrite tally_sum by auto. reflexivity.
Qed.

(** X5. Every result that either [main] collects has the four task
    keys in its breakdown, so that building its row never misses a key;
    in the row each task column is zero or the points of its task, and
    the grade is the sum of the four task columns.  This holds for the
    rows of failed runs too. *)
Theorem rows_add_up (files : list str) :
  Forall (fun r => dom (breakdown r) = list_to_set KEYS
                   /\ row_adds_up Pandas.POINTS (Report.row_of r))
         (Report.pandas_results abspath script run files)
  /\ Forall (fun r => dom (breakdown r) = list_to_set KEYS
                      /\ row_adds_up PyList.POINTS (Report.row_of r))
            (Report.list_results abspath script run files).
Proof.
  unfold Report.pandas_results, Report.list_results.
  rewrite !foldl_keep. simpl.
  split; apply Forall_forall; intros r Hr; apply list_elem_of_In in Hr;
    apply in_map_iff in Hr as (fpath & <- & _).
  - apply pandas_file_row.
  - apply list_file_row.
Qed.

End MainLoop.

(* ===================================================================== *)
(** * More on the tolerant checks *)
(* ===================================================================== *)

Section TolerantMore.
Import Spec Props.

Lemma joined_pattern_iff (name amount : string) (p : str) :
  Re.Matches (Re.Cat (Re.text (lit name))
                     (Re.Cat (Re.Star Re.dot) (Re.text (lit amount)))) p
  <-> exists mid, p = lit name ++ mid ++ lit amount /\ Forall (fun c => c <> LF) mid.
Proof.
  assert (Hdot : forall mid, Forall (fun c => negb (c =? LF) = true) mid
                             <-> Forall (fun c => c <> LF) mid).
  { intros mid. split; induction 1 as [|c l Hc _ IH]; constructor; auto;
      revert Hc; rewrite negb_true_iff, N.eqb_neq; auto. }
  split.
  - intros H.
    apply cat_iff in H as (s1 & ? & -> & ->%text_iff & H).
    apply cat_iff in H as (mid & ? & -> & Hm%star_cls_iff & ->%text_iff).
    exists mid. split; [reflexivity | apply Hdot, Hm].
  - intros (mid & -> & Hm). repeat apply Re.MCat; try (apply text_iff; reflexivity).
    apply star_cls_iff, Hdot, Hm.
Qed.

Lemma joined_found_iff (name amount : string) (s : str) :
  Re.found (Re.search (Re.Cat (Re.text (lit name))
                              (Re.Cat (Re.Star Re.dot) (Re.text (lit amount)))) s) = true
  <-> same_line_evidence name amount s.
Proof.
  rewrite found_search. unfold match_at, same_line_evidence. split.
  - intros (i & pre & p & post & -> & _ & (mid & -> & Hm)%joined_pattern_iff).
    exists pre, mid, post. rewrite <- !app_assoc. auto.
  - intros (pre & mid & post & -> & Hm).
    exists (length pre), pre, (lit name ++ mid ++ lit amount), post.
    rewrite <- !app_assoc. repeat split. apply joined_pattern_iff. eauto.
Qed.

(** X6. The tolerant check of the join task passes exactly when the
    output holds, for each of the three expected rows, the name followed
    on the same line by the amount: Alice and 100, Alice and 150, Bob and
    200, anywhere in the output and in any order. *)
Theorem joined_fallback_iff (stdout : str) :
  Pandas.joined_fallback stdout = true
  <-> same_line_evidence "Alice" "100" stdout
      /\ same_line_evidence "Alice" "150" stdout
      /\ same_line_evidence "Bob" "200" stdout.
Proof.
  unfold Pandas.joined_fallback, Pandas.RE_JOINED_A1, Pandas.RE_JOINED_A2,
    Pandas.RE_JOINED_B1.
  cbn [forallb]. rewrite !andb_true_iff, !joined_found_iff. tauto.
Qed.

Lemma found_context (r : Re.regex) (s a b : str) :
  Re.found (Re.search r s) = true -> Re.found (Re.search r (a ++ s ++ b)) = true.
Proof.
  rewrite !found_search. intros (i & pre & p & post & -> & _ & H).
  exists (length (a ++ pre)), (a ++ pre), p, (post ++ b).
  rewrite <- !app_assoc. auto.
Qed.

(** X7. Text printed before or after an output never takes away the
    tolerant credit of the join task or of the group task. *)
Theorem fallbacks_survive_context (stdout before after : str) :
  (Pandas.joined_fallback stdout = true ->
   Pandas.joined_fallback (before ++ stdout ++ after) = true)
  /\ (Pandas.grouped_fallback stdout = true ->
      Pandas.grouped_fallback (before ++ stdout ++ after) = true).
Proof.
  unfold Pandas.joined_fallback, Pandas.grouped_fallback. cbn [forallb].
  rewrite !andb_true_iff. split.
  - intros (H1 & H2 & H3 & _). repeat split; apply found_context; assumption.
  - intros (H1 & H2). split; apply found_context; assumption.
Qed.

Lemma after_marker_suffix (marker s : str) :
  exists pre, s = pre ++ Pandas.after_marker marker s.
Proof.
  destruct (after_marker_window marker s) as [(pre & E & _)|[_ E]].
  - exists (pre ++ marker). rewrite <- app_assoc. exact E.
  - exists []. rewrite E. reflexivity.
Qed.

(** X8. Whenever the tolerant check of the sort task passes on an
    output, the tolerant check of the group task passes on it too. *)
Theorem sorted_implies_grouped (stdout : str) :
  Pandas.sorted_fallback stdout = true -> Pandas.grouped_fallback stdout = true.
Proof.
  unfold Pandas.sorted_fallback, Pandas.grouped_fallback.
  destruct (after_marker_suffix Pandas.sorted_marker stdout) as [pre E].
  set (w := Pandas.after_marker Pandas.sorted_marker stdout) in *.
  destruct (Re.search Pandas.RE_G_A w) as [ia|] eqn:Ea; [|discriminate].
  destruct (Re.search Pandas.RE_G_B w) as [ib|] eqn:Eb; [|discriminate].
  intros _. rewrite E. rewrite <- (app_nil_r w).
  apply andb_true_iff. split; apply found_context.
  - rewrite Ea. reflexivity.
  - rewrite Eb. reflexivity.
Qed.

Lemma after_marker_of_window (marker s w : str) :
  window marker s w -> Pandas.after_marker marker s = w.
Proof. intros H. apply (window_unique marker s); [apply after_marker_window | exact H]. Qed.

(** X9. The verdicts of the sort check and of the top-user check depend
    on the search window alone: two outputs with the same window get the
    same verdict, whatever comes before the marker. *)
Theorem window_decides (s1 s2 w : str) :
  (window Pandas.sorted_marker s1 w -> window Pandas.sorted_marker s2 w ->
   Pandas.sorted_fallback s1 = Pandas.sorted_fallback s2)
  /\ (window Pandas.top_marker s1 w -> window Pandas.top_marker s2 w ->
      Pandas.top_user_fallback s1 = Pandas.top_user_fallback s2).
Proof.
  split; intros H1 H2.
  - unfold Pandas.sorted_fallback.
    rewrite (after_marker_of_window _ _ _ H1), (after_marker_of_window _ _ _ H2).
    reflexivity.
  - unfold Pandas.top_user_fallback.
    rewrite (after_marker_of_window _ _ _ H1), (after_marker_of_window _ _ _ H2).
    reflexivity.
Qed.

Lemma capitals_hide_marker (s : str) :
  Pandas.after_marker Pandas.top_marker (map Re.ascii_upper s) = map Re.ascii_upper s.
Proof.
  apply after_marker_of_window. right. split; [|reflexivity].
  intros j (pre & post & E & _).
  assert (Hin : In 0x6F (map Re.ascii_upper s)).
  { rewrite E. apply in_or_app. right. apply in_or_app. left.
    vm_compute. auto 10. }
  apply in_map_iff in Hin as (c & Hc & _).
  pose proof (upper_not_lower c) as Hl. rewrite Hc in Hl. discriminate.
Qed.

(** X10. Putting a whole output in capitals never loses the tolerant
    credit of the top-user task. *)
Theorem top_user_survives_capitals (stdout : str) :
  Pandas.top_user_fallback stdout = true ->
  Pandas.top_user_fallback (map Re.ascii_upper stdout) = true.
Proof.
  unfold Pandas.top_user_fallback. rewrite capitals_hide_marker.
  destruct (after_marker_suffix Pandas.top_marker stdout) as [pre E].
  set (w := Pandas.after_marker Pandas.top_marker stdout) in *.
  destruct top_patterns_respect as (U1 & U2 & _).
  rewrite !andb_true_iff. intros [H1 H2].
  rewrite E, map_app, <- (app_nil_r (map Re.ascii_upper w)).
  split; apply found_context.
  - rewrite (search_image _ _ w U1). exact H1.
  - rewrite (search_image _ _ w U2). exact H2.
Qed.

End TolerantMore.

(* ===================================================================== *)
(** * Remarks and totals *)
(* ===================================================================== *)

Section RemarksMore.
Context {rt : PyRuntime}.
Import Spec Props.

Lemma remarks_for_ext (p1 p2 : string -> bool) (remark : string -> str) :
  (forall k, In k KEYS -> p1 k = p2 k) ->
  remarks_for p1 remark = remarks_for p2 remark.
Proof.
  intros H. unfold remarks_for, KEYS in *. cbn [map concat].
  rewrite !H by (simpl; auto 6). reflexivity.
Qed.

Lemma tally_zero_iff (POINTS : list (string * Z)) (pass : string -> bool) (k : string) :
  POINTS = Pandas.POINTS \/ POINTS = PyList.POINTS -> In k KEYS ->
  negb (bool_decide (tally POINTS pass !! k = Some 0%Z)) = pass k.
Proof.
  intros known Hk. rewrite (tally_lookup POINTS known pass k Hk).
  pose proof (points_nonzero POINTS k known Hk) as Hn.
  destruct (pass k).
  - apply negb_true_iff, bool_decide_eq_false_2. congruence.
  - apply negb_false_iff, bool_decide_eq_true_2. reflexivity.
Qed.

(** X11. In the pandas grader the remarks are exactly the tasks that got
    zero: one remark [<key> mismatch] for each task whose entry in the
    breakdown is zero, in the order joined, grouped, sorted_result,
    top_user, and no other remark. *)
Theorem pandas_remarks_name_zeros (stdout : str) :
  (Pandas.grade_from_stdout stdout).2
  = remarks_for
      (fun k => negb (bool_decide ((Pandas.grade_from_stdout stdout).1.2 !! k = Some 0%Z)))
      (fun k => lit k ++ lit " mismatch").
Proof.
  rewrite pandas_grade. cbn [fst snd]. apply remarks_for_ext.
  intros k Hk. symmetry. apply tally_zero_iff; auto.
Qed.









End RemarksMore.

(* ===================================================================== *)
(** * Headers and the characters of the output *)
(* ===================================================================== *)

Section HeaderChars.
Context {rt : PyRuntime}.
Import Spec Props.

Lemma splitlines_chars_n (n : nat) (s : str) (l : str) (c : N) :
  (length s <= n)%nat -> In l (splitlines s) -> In c l -> In c s.
Proof.
  revert s l. induction n as [|n IH]; intros s l Hn.
  - destruct s; [intros [] | simpl in Hn; lia].
  - destruct s as [|a s]; [intros []|]. simpl in Hn. simpl splitlines.
    destruct (is_linebreak a).
    + destruct s as [|d s'].
      * intros [<-|[]] [].
      * destruct ((a =? CR) && (d =? LF)).
        -- intros [<-|Hl] Hc; [destruct Hc|].
           right. right. apply (IH s' l); [simpl in Hn; lia | exact Hl | exact Hc].
        -- intros [<-|Hl] Hc; [destruct Hc|].
           right. apply (IH (d :: s') l); [simpl in *; lia | exact Hl | exact Hc].
    + destruct (splitlines s) as [|l0 ls] eqn:E.
      * intros [<-|[]] [->|[]]. left. reflexivity.
      * intros [<-|Hl] Hc.
        -- destruct Hc as [->|Hc]; [left; reflexivity|].
           right. apply (IH s l0); [lia | rewrite E; left; reflexivity | exact Hc].
        -- right. apply (IH s l); [lia | rewrite E; right; exact Hl | exact Hc].
Qed.

(** The characters of a line of the output are characters of the
    output. *)
Lemma splitlines_chars (s l : str) (c : N) :
  In l (splitlines s) -> In c l -> In c s.
Proof. apply (splitlines_chars_n (length s)). lia. Qed.

Lemma lstrip_chars (s : str) (c : N) : In c (lstrip s) -> In c s.
Proof.
  destruct (lstrip_split s) as [pre E]. intros H. rewrite E.
  apply in_or_app. right. exact H.
Qed.

Lemma strip_chars (s : str) (c : N) : In c (strip s) -> In c s.
Proof.
  unfold strip, rstrip. intros H%in_rev%lstrip_chars%in_rev. apply lstrip_chars, H.
Qed.

(** A header whose first character is nowhere in the output is not
    found. *)
Lemma extract_without_char (stdout : str) (h : N) (t : str) :
  ~ In h stdout -> extract_after_header stdout (h :: t) = PyNone.
Proof.
  intros Hh. apply extract_in_lines_absent, Forall_forall.
  intros l Hl%list_elem_of_In E. apply Hh.
  apply (splitlines_chars stdout l h Hl), strip_chars. rewrite E. left. reflexivity.
Qed.

Lemma tally_ext (POINTS : list (string * Z)) (p1 p2 : string -> bool) :
  POINTS = Pandas.POINTS \/ POINTS = PyList.POINTS ->
  (forall k, In k KEYS -> p1 k = p2 k) -> tally POINTS p1 = tally POINTS p2.
Proof.
  intros [-> | ->] H; unfold tally, KEYS in *;
    cbn [map fst snd Pandas.POINTS PyList.POINTS];
    rewrite !H by (simpl; auto 6); reflexivity.
Qed.

(** X14. On an output that holds neither of the characters U+00E2 and
    U+00F0, with which the headers of the pandas grader start, the
    pandas grader extracts nothing for any task: every task is decided by
    its tolerant matcher alone. *)
Theorem pandas_tolerant_only (stdout : str) :
  ~ In 0xE2 stdout -> ~ In 0xF0 stdout ->
  Forall (fun key =>
            extract_after_header stdout (subscript Pandas.HEADERS key) = PyNone
            /\ (Pandas.grade_from_stdout stdout).1.2 !! key
               = Some (if Pandas.fallback key stdout
                       then subscript Pandas.POINTS key else 0%Z))
         KEYS.
Proof.
  intros H1 H2.
  assert (E : forall key, In key KEYS ->
            extract_after_header stdout (subscript Pandas.HEADERS key) = PyNone).
  { intros key [<-|[<-|[<-|[<-|[]]]]]; apply extract_without_char; assumption. }
  apply Forall_forall. intros key Hk%list_elem_of_In.
  split; [apply E, Hk|].
  rewrite pandas_grade. cbn [fst snd].
  rewrite (tally_lookup Pandas.POINTS (or_introl eq_refl) _ key Hk).
  unfold pandas_pass, strict_ok, strict_pass. rewrite (E key Hk). reflexivity.
Qed.

(** X15. The python-list grader gives nothing without the decorated
    headers: on an output without the character U+2705 the join, group
    and sort tasks get zero, and on an output without the character
    U+1F3C6 the top-user task gets zero, whatever else is printed. *)
Theorem list_needs_headers (stdout : str) :
  (~ In 0x2705 stdout ->
   Forall (fun key => (PyList.grade_from_stdout stdout).1.2 !! key = Some 0%Z)
          ["joined"; "grouped"; "sorted_result"]%string)
  /\ (~ In 0x1F3C6 stdout ->
      (PyList.grade_from_stdout stdout).1.2 !! "top_user"%string = Some 0%Z).
Proof.
  rewrite list_grade. cbn [fst snd].
  assert (Z0 : forall key, In key KEYS ->
            extract_after_header stdout (subscript PyList.HEADERS key) = PyNone ->
            tally PyList.POINTS (list_pass stdout) !! key = Some 0%Z).
  { intros key Hk E. apply (tally_awarded PyList.POINTS); auto.
    unfold list_pass, strict_ok, strict_pass. rewrite E. reflexivity. }
  split.
  - intros H. repeat constructor; apply Z0; try (simpl; auto 6; fail);
      apply extract_without_char; assumption.
  - intros H. apply Z0; [simpl; auto 6|]. apply extract_without_char. assumption.
Qed.

(** X16. A header that starts or ends with white space is never found,
    since lines are compared after trimming: the extractor returns
    [None] for it on every output. *)
Theorem untrimmed_header_never_found (stdout header : str) :
  strip header <> header -> extract_after_header stdout header = PyNone.
Proof.
  intros H. apply extract_in_lines_absent, Forall_forall. intros l _ E.
  apply H. rewrite <- E. apply strip_idempotent.
Qed.

Lemma next_nonblank_trim (ls ls' : list str) :
  Forall2 (fun l l' => strip l = strip l') ls ls' ->
  next_nonblank ls = next_nonblank ls'.
Proof.
  induction 1 as [|l l' ls ls' E _ IH]; simpl; [reflexivity|].
  rewrite E, IH. reflexivity.
Qed.

(** X17. Indentation and trailing white space do not count: two outputs
    whose lines are the same after trimming give the same extracted
    value for every header. *)
Theorem extract_ignores_indentation (s1 s2 header : str) :
  Forall2 (fun l l' => strip l = strip l') (splitlines s1) (splitlines s2) ->
  extract_after_header s1 header = extract_after_header s2 header.
Proof.
  unfold extract_after_header.
  induction 1 as [|l l' ls ls' E Hrest IH]; simpl; [reflexivity|].
  rewrite E, IH, (next_nonblank_trim ls ls' Hrest). reflexivity.
Qed.

End HeaderChars.

(* ===================================================================== *)
(** * Blank outputs *)
(* ===================================================================== *)

Section BlankOutput.
Context {rt : PyRuntime}.
Import Spec Props.

Lemma folds_not_space (lo c : N) :
  Re.is_ascii_lower lo = true -> Re.folds_to lo c = true -> is_space c = false.
Proof.
  intros Hlo%lower_range H. apply not_true_iff_false. intros Hs.
  unfold Re.folds_to in H. unfold is_space in Hs.
  repeat first [ rewrite orb_true_iff in H | rewrite andb_true_iff in H
               | rewrite N.eqb_eq in H | rewrite N.leb_le in H ].
  repeat first [ rewrite orb_true_iff in Hs | rewrite andb_true_iff in Hs
               | rewrite N.eqb_eq in Hs | rewrite N.leb_le in Hs ].
  lia.
Qed.

Lemma text_starts (c0 : N) (t : str) (r : Re.regex) :
  is_space c0 = false -> starts_unspaced (Re.Cat (Re.text (c0 :: t)) r).
Proof.
  intros Hc w (s1 & s2 & -> & ->%text_iff & _)%cat_iff.
  exists c0, (t ++ s2). auto.
Qed.

Lemma itext_starts (c0 : N) (t : str) (r : Re.regex) :
  Re.is_ascii_upper c0 || Re.is_ascii_lower c0 = true ->
  starts_unspaced (Re.Cat (Re.itext (c0 :: t)) r).
Proof.
  intros Hc w (s1 & s2 & -> & H1 & _)%cat_iff.
  simpl in H1. apply cat_iff in H1 as (s0 & s1' & -> & H0 & _).
  unfold Re.ichr in H0. rewrite Hc in H0. inversion H0 as [|p c Hf| | | | |]; subst.
  exists c, (s1' ++ s2). split; [reflexivity|].
  apply (folds_not_space (Re.ascii_lower c0)); [apply lower_is_lower, Hc | exact Hf].
Qed.

Lemma search_blank_None (r : Re.regex) (s : str) :
  starts_unspaced r -> blank s -> Re.search r s = None.
Proof.
  intros Hr Hs. apply search_None.
  intros j (pre & p & post & -> & _ & (c & w' & -> & Hc)%Hr).
  unfold blank in Hs. rewrite Forall_forall in Hs.
  assert (is_space c = true).
  { apply Hs, list_elem_of_In, in_or_app. right. left. reflexivity. }
  congruence.
Qed.

Lemma blank_suffix (pre w : str) : blank (pre ++ w) -> blank w.
Proof. unfold blank. intros [_ H]%Forall_app. exact H. Qed.

Lemma blank_fallbacks (stdout : str) (key : string) :
  blank stdout -> In key KEYS -> Pandas.fallback key stdout = false.
Proof.
  intros Hb Hk.
  assert (Ja : forall amount,
            starts_unspaced (Re.Cat (Re.text (lit "Alice"))
                                    (Re.Cat (Re.Star Re.dot) (Re.text (lit amount)))))
    by (intros; apply text_starts; reflexivity).
  assert (Ga : starts_unspaced Pandas.RE_G_A) by (apply text_starts; reflexivity).
  assert (Gb : starts_unspaced Pandas.RE_G_B) by (apply text_starts; reflexivity).
  assert (Tn : starts_unspaced Pandas.RE_TOP_NAME) by (apply itext_starts; reflexivity).
  destruct Hk as [<-|[<-|[<-|[<-|[]]]]].
  - change (Pandas.joined_fallback stdout = false).
    unfold Pandas.joined_fallback, Pandas.RE_JOINED_A1. cbn [forallb].
    rewrite (search_blank_None _ _ (Ja "100"%string) Hb). reflexivity.
  - change (Pandas.grouped_fallback stdout = false).
    unfold Pandas.grouped_fallback. rewrite (search_blank_None _ _ Ga Hb). reflexivity.
  - change (Pandas.sorted_fallback stdout = false).
    unfold Pandas.sorted_fallback.
    destruct (after_marker_suffix Pandas.sorted_marker stdout) as [pre E].
    rewrite E in Hb. apply blank_suffix in Hb.
    rewrite (search_blank_None _ _ Ga Hb). reflexivity.
  - change (Pandas.top_user_fallback stdout = false).
    unfold Pandas.top_user_fallback.
    destruct (after_marker_suffix Pandas.top_marker stdout) as [pre E].
    rewrite E in Hb. apply blank_suffix in Hb.
    rewrite (search_blank_None _ _ Tn Hb). reflexivity.
Qed.

Lemma blank_lacks (stdout : str) (c : N) : blank stdout -> is_space c = false -> ~ In c stdout.
Proof.
  unfold blank. rewrite Forall_forall. intros H Hc Hin%list_elem_of_In.
  apply H in Hin. congruence.
Qed.

(** X18. An output made of white space only, the empty output
    included, gets nothing in either grader: total zero, every task at
    zero, the four mismatch remarks in the pandas grader and eight
    remarks in the python-list grader. *)
Theorem blank_output_scores_zero (stdout : str) :
  blank stdout ->
  Pandas.grade_from_stdout stdout
  = (0%Z, zero_breakdown Pandas.POINTS, map (fun k => lit k ++ lit " mismatch") KEYS)
  /\ (PyList.grade_from_stdout stdout).1 = (0%Z, zero_breakdown PyList.POINTS)
  /\ length (PyList.grade_from_stdout stdout).2 = 8%nat.
Proof.
  intros Hb.
  assert (Ep : forall k, In k KEYS ->
            extract_after_header stdout (subscript Pandas.HEADERS k) = PyNone).
  { intros k [<-|[<-|[<-|[<-|[]]]]]; apply extract_without_char, (blank_lacks _ _ Hb);
      reflexivity. }
  assert (El : forall k, In k KEYS ->
            extract_after_header stdout (subscript PyList.HEADERS k) = PyNone).
  { intros k [<-|[<-|[<-|[<-|[]]]]]; apply extract_without_char, (blank_lacks _ _ Hb);
      reflexivity. }
  assert (Pp : forall k, In k KEYS -> pandas_pass stdout k = (fun _ => false) k).
  { intros k Hk. unfold pandas_pass, strict_ok, strict_pass.
    rewrite (Ep k Hk), (blank_fallbacks stdout k Hb Hk). reflexivity. }
  assert (Pl : forall k, In k KEYS -> list_pass stdout k = (fun _ => false) k).
  { intros k Hk. unfold list_pass, strict_ok, strict_pass. rewrite (El k Hk). reflexivity. }
  assert (Nl : forall k, In k KEYS ->
            negb (is_none (extract_after_header stdout (subscript PyList.HEADERS k)))
            = (fun _ => false) k).
  { intros k Hk. rewrite (El k Hk). reflexivity. }
  rewrite pandas_grade, list_grade. cbn [fst snd].
  rewrite (tally_ext Pandas.POINTS _ _ (or_introl eq_refl) Pp),
          (tally_ext PyList.POINTS _ _ (or_intror eq_refl) Pl),
          (remarks_for_ext _ _ _ Pp), (remarks_for_ext _ _ _ Pl),
          (remarks_for_ext _ _ _ Nl).
  rewrite !tally_sum by auto.
  rewrite <- !zero_breakdown_tally by auto.
  repeat split.
Qed.

End BlankOutput.

(* ===================================================================== *)
(** * The strict comparator as a relation *)
(* ===================================================================== *)

Section ComparatorMore.
Import Spec Props.

Lemma Forall2_refl_in {A : Type} (R : A -> A -> Prop) (xs : list A) :
  (forall x, In x xs -> R x x) -> Forall2 R xs xs.
Proof.
  induction xs as [|x xs IH]; intros H; constructor.
  - apply H. left. reflexivity.
  - apply IH. intros y Hy. apply H. right. exact Hy.
Qed.

Lemma deep_equal_refl_n (n : nat) (a : pyval) : (size a < n)%nat -> deep_equal a a.
Proof.
  revert a. induction n as [|n IH]; intros a Hn; [lia|].
  destruct a as [|x|x|s|xs|xs|xs]; simpl; try reflexivity; try exact I.
  - apply seq_rel_iff, Forall2_refl_in. intros x Hx. apply IH.
    apply size_elem in Hx. simpl in Hn. lia.
  - apply seq_rel_iff, Forall2_refl_in. intros x Hx. apply IH.
    apply size_elem in Hx. simpl in Hn. lia.
  - simpl in Hn.
    split; apply each_item_iff; intros k v Hin; apply some_item_iff;
      exists k, v; pose proof (size_item _ _ _ Hin);
      (split; [exact Hin | split; apply IH; lia]).
Qed.

(** X19. On values as Python builds them the strict comparator is an
    equivalence: every value passes against itself, the verdict does not
    depend on which of the two values is the expected one, and two values
    that both pass against a third pass against each other. *)
Theorem compare_deep_equivalence (a b c : pyval) :
  wf a = true -> wf b = true -> wf c = true ->
  compare_deep a a = true
  /\ compare_deep a b = compare_deep b a
  /\ (compare_deep a b = true -> compare_deep b c = true -> compare_deep a c = true).
Proof.
  intros Wa Wb Wc. unfold compare_deep.
  assert (E : forall x y, wf x = true -> wf y = true ->
            (py_eq x y = true <-> deep_equal x y)).
  { intros x y Wx Wy. apply (py_eq_deep_n (S (size x + size y))); auto. }
  split; [|split].
  - apply (E a a Wa Wa), (deep_equal_refl_n (S (size a))). lia.
  - apply eq_iff_eq_true. rewrite (E a b Wa Wb), (E b a Wb Wa).
    split; apply deep_equal_sym.
  - rewrite (E a b Wa Wb), (E b c Wb Wc), (E a c Wa Wc). apply deep_equal_trans.
Qed.

End ComparatorMore.

(* ===================================================================== *)
(** * The further statements with hypotheses, at sample inputs *)
(* ===================================================================== *)

Lemma not_in_by_test (c : N) (s : str) :
  forallb (fun d => negb (d =? c)) s = true -> ~ In c s.
Proof.
  rewrite forallb_forall. intros H Hin. apply H in Hin.
  rewrite N.eqb_refl in Hin. discriminate.
Qed.

Lemma student_id_up_to_underscore_witness :
  Props.dir_prefix (lit "pandas_src/")
  /\ Files.student_id_from_filename (lit "pandas_src/12345_pandas.py") = lit "12345".
Proof.
  assert (Hp : Props.dir_prefix (lit "pandas_src/"))
    by (right; exists (lit "pandas_src"); reflexivity).
  split; [exact Hp|].
  apply (student_id_up_to_underscore (lit "pandas_src/") 0x31 (lit "2345") (lit "pandas.py") Hp).
  - apply not_in_by_test. reflexivity.
  - discriminate.
  - repeat constructor; discriminate.
Defined.

Lemma student_id_without_underscore_witness :
  Props.dir_prefix (lit "a/b/")
  /\ Files.student_id_from_filename (lit "a/b/noid.py") = lit "noid".
Proof.
  assert (Hp : Props.dir_prefix (lit "a/b/")) by (right; exists (lit "a/b"); reflexivity).
  split; [exact Hp|].
  apply (student_id_without_underscore (lit "a/b/") (lit "noid") (lit "py") Hp).
  - apply not_in_by_test. reflexivity.
  - apply not_in_by_test. reflexivity.
  - apply not_in_by_test. reflexivity.
  - exists 0x6E. split; [left; reflexivity | discriminate].
Defined.

Lemma main_results_witness :
  (exists t, Samples.work_abspath (lit "grade_python_list.py") = 0x2F :: t)
  /\ length (@Report.list_results Reader.runtime Samples.work_abspath
               (lit "grade_python_list.py") Samples.timed_out Samples.list_files) = 2%nat.
Proof.
  assert (H : exists t, Samples.work_abspath (lit "grade_python_list.py") = 0x2F :: t)
    by (eexists; reflexivity).
  split; [exact H|].
  destruct (@main_results Reader.runtime Samples.work_abspath (lit "grade_python_list.py")
              Samples.timed_out Samples.list_files) as [Hl _].
  rewrite (Hl H). reflexivity.
Defined.

Lemma fallbacks_survive_context_witness :
  Pandas.grouped_fallback Samples.table = true
  /\ Pandas.grouped_fallback (lit "Result:" ++ Samples.table ++ lit "done") = true.
Proof.
  assert (H : Pandas.grouped_fallback Samples.table = true) by (vm_compute; reflexivity).
  split; [exact H|].
  apply (fallbacks_survive_context Samples.table (lit "Result:") (lit "done")), H.
Defined.

Lemma sorted_implies_grouped_witness :
  Pandas.sorted_fallback Samples.table = true
  /\ Pandas.grouped_fallback Samples.table = true.
Proof.
  assert (H : Pandas.sorted_fallback Samples.table = true) by (vm_compute; reflexivity).
  split; [exact H|]. apply (sorted_implies_grouped Samples.table H).
Defined.

Lemma window_decides_witness :
  Spec.window Pandas.sorted_marker
    (Samples.table_reversed ++ Pandas.sorted_marker ++ Samples.table) Samples.table
  /\ Spec.window Pandas.sorted_marker (Pandas.sorted_marker ++ Samples.table) Samples.table
  /\ Pandas.sorted_fallback (Samples.table_reversed ++ Pandas.sorted_marker ++ Samples.table)
     = Pandas.sorted_fallback (Pandas.sorted_marker ++ Samples.table).
Proof.
  assert (W1 : Spec.window Pandas.sorted_marker
                 (Samples.table_reversed ++ Pandas.sorted_marker ++ Samples.table)
                 Samples.table).
  { pose proof (after_marker_window Pandas.sorted_marker
                  (Samples.table_reversed ++ Pandas.sorted_marker ++ Samples.table)) as H.
    vm_compute Pandas.after_marker in H. exact H. }
  assert (W2 : Spec.window Pandas.sorted_marker (Pandas.sorted_marker ++ Samples.table)
                 Samples.table).
  { pose proof (after_marker_window Pandas.sorted_marker
                  (Pandas.sorted_marker ++ Samples.table)) as H.
    vm_compute Pandas.after_marker in H. exact H. }
  split; [exact W1|]. split; [exact W2|].
  apply (window_decides _ _ Samples.table); assumption.
Defined.

Lemma top_user_survives_capitals_witness :
  Pandas.top_user_fallback Samples.pandas_output = true
  /\ Pandas.top_user_fallback (map Re.ascii_upper Samples.pandas_output) = true.
Proof.
  assert (H : Pandas.top_user_fallback Samples.pandas_output = true)
    by (vm_compute; reflexivity).
  split; [exact H|]. apply (top_user_survives_capitals _ H).
Defined.


Lemma pandas_tolerant_only_witness :
  ~ In 0xE2 Samples.pandas_output /\ ~ In 0xF0 Samples.pandas_output
  /\ Forall (fun key =>
               @extract_after_header Reader.runtime Samples.pandas_output
                 (subscript Pandas.HEADERS key) = PyNone
               /\ (@Pandas.grade_from_stdout Reader.runtime Samples.pandas_output).1.2 !! key
                  = Some (if Pandas.fallback key Samples.pandas_output
                          then subscript Pandas.POINTS key else 0%Z))
            Spec.KEYS.
Proof.
  assert (H1 : ~ In 0xE2 Samples.pandas_output) by (apply not_in_by_test; reflexivity).
  assert (H2 : ~ In 0xF0 Samples.pandas_output) by (apply not_in_by_test; reflexivity).
  split; [exact H1|]. split; [exact H2|].
  apply (@pandas_tolerant_only Reader.runtime Samples.pandas_output H1 H2).
Defined.

Lemma list_needs_headers_witness :
  ~ In 0x1F3C6 Samples.table
  /\ (@PyList.grade_from_stdout Reader.runtime Samples.table).1.2 !! "top_user"%string
     = Some 0%Z.
Proof.
  assert (H : ~ In 0x1F3C6 Samples.table) by (apply not_in_by_test; reflexivity).
  split; [exact H|].
  destruct (@list_needs_headers Reader.runtime Samples.table) as [_ Ht]. apply (Ht H).
Defined.

Lemma untrimmed_header_never_found_witness :
  strip (lit " HDR:") <> lit " HDR:"
  /\ @extract_after_header Reader.runtime Samples.twice_marked (lit " HDR:") = PyNone.
Proof.
  assert (H : strip (lit " HDR:") <> lit " HDR:") by (vm_compute; discriminate).
  split; [exact H|].
  apply (@untrimmed_header_never_found Reader.runtime Samples.twice_marked _ H).
Defined.

Lemma extract_ignores_indentation_witness :
  Forall2 (fun l l' => strip l = strip l')
          (splitlines Samples.twice_marked) (splitlines Samples.twice_marked_trimmed)
  /\ @extract_after_header Reader.runtime Samples.twice_marked (lit "HDR:")
     = @extract_after_header Reader.runtime Samples.twice_marked_trimmed (lit "HDR:").
Proof.
  assert (H : Forall2 (fun l l' => strip l = strip l')
                (splitlines Samples.twice_marked)
                (splitlines Samples.twice_marked_trimmed)).
  { vm_compute splitlines. repeat constructor. }
  split; [exact H|].
  apply (@extract_ignores_indentation Reader.runtime _ _ (lit "HDR:") H).
Defined.

Lemma blank_output_scores_zero_witness :
  Props.blank Samples.blank_lines
  /\ (@Pandas.grade_from_stdout Reader.runtime Samples.blank_lines).1.1 = 0%Z.
Proof.
  assert (H : Props.blank Samples.blank_lines) by (repeat constructor).
  split; [exact H|].
  destruct (@blank_output_scores_zero Reader.runtime Samples.blank_lines H) as [E _].
  rewrite E. reflexivity.
Defined.

Lemma compare_deep_equivalence_witness :
  wf Samples.dict_ab = true /\ wf Samples.dict_ba = true
  /\ compare_deep Samples.dict_ab Samples.dict_ba
     = compare_deep Samples.dict_ba Samples.dict_ab.
Proof.
  assert (Ha : wf Samples.dict_ab = true) by reflexivity.
  assert (Hb : wf Samples.dict_ba = true) by reflexivity.
  split; [exact Ha|]. split; [exact Hb|].
  destruct (compare_deep_equivalence Samples.dict_ab Samples.dict_ba Samples.dict_ab Ha Hb Ha)
    as (_ & Hs & _).
  exact Hs.
Defined.
